(** * madflow scraper: the incremental listing walk of [scraper/data-extraction.py]

    The script reads the newest stored record of [files-data.json] as a
    checkpoint ([get_last_data]), walks the year/month listing of the
    open-data page until it meets that checkpoint, and merges the links it
    found with the stored ones ([get_data]).

    The development embeds both functions over
    - a document tree with the search operations of BeautifulSoup that the
      script calls ([find], [find_all], [get], [get_text]),
    - the values [json.load] produces, with Python's truth value, equality,
      indexing and iteration on them,
    - a small state-and-exception monad [Py] over the world the script
      touches: the served page, the record file and the log.

    A Python [str] is the byte string of its UTF-8 encoding, a lone
    surrogate being written as the three bytes that encoding would give it
    if it were allowed (bytes ED A0..BF xx). *)

From Stdlib Require Import String Ascii List Bool ZArith Arith Lia.
Import ListNotations.
Set Warnings "-register-all".
Local Open Scope string_scope.
Local Open Scope list_scope.

(** ** Strings *)

Module Str.

(** How many bytes the code point that starts with byte [c] takes. *)
Definition width (c : ascii) : nat :=
  let n := nat_of_ascii c in
  if (n <? 192)%nat then 1%nat
  else if (n <? 224)%nat then 2%nat
  else if (n <? 240)%nat then 3%nat
  else 4%nat.

Definition flush (cur : string) : list string :=
  match cur with EmptyString => [] | _ => [cur] end.

Fixpoint points_from (cur : string) (need : nat) (s : string) : list string :=
  match s with
  | EmptyString => flush cur
  | String c s' =>
    match need with
    | S n => points_from (cur ++ String c EmptyString) n s'
    | O => flush cur ++ points_from (String c EmptyString) (width c - 1) s'
    end
  end.

(** The code points of a string, each as the string of its bytes. *)
Definition codepoints (s : string) : list string := points_from "" 0 s.

(** [str.isspace] of one code point: U+0009..000D, U+001C..0020, U+0085,
    U+00A0, U+1680, U+2000..200A, U+2028, U+2029, U+202F, U+205F, U+3000. *)
Definition isspace (p : string) : bool :=
  match map nat_of_ascii (list_ascii_of_string p) with
  | [n] => ((9 <=? n) && (n <=? 13) || (28 <=? n) && (n <=? 32))%nat
  | [a; b] => ((a =? 194) && ((b =? 133) || (b =? 160)))%nat
  | [a; b; c] =>
    ((a =? 225) && (b =? 154) && (c =? 128)
     || (a =? 226) && (b =? 128)
        && ((128 <=? c) && (c <=? 138) || (c =? 168) || (c =? 169) || (c =? 175))
     || (a =? 226) && (b =? 129) && (c =? 159)
     || (a =? 227) && (b =? 128) && (c =? 128))%nat
  | _ => false
  end.

Fixpoint lstrip_points (l : list string) : list string :=
  match l with
  | p :: l' => if isspace p then lstrip_points l' else l
  | [] => []
  end.

(** [sep.join(parts)] *)
Definition join (sep : string) (parts : list string) : string :=
  String.concat sep parts.

(** [s.strip()] *)
Definition strip (s : string) : string :=
  join "" (rev (lstrip_points (rev (lstrip_points (codepoints s))))).

(** The characters of a string, each as a one-character string (what
    iterating over a [str] yields). *)
Definition chars (s : string) : list string := codepoints s.

(** A surrogate code point, U+D800..DFFF. *)
Definition is_surrogate (p : string) : bool :=
  match map nat_of_ascii (list_ascii_of_string p) with
  | [a; b; _] => ((a =? 237) && (160 <=? b))%nat
  | _ => false
  end.

(** Can the string be written to a UTF-8 text file?  Not when it holds a
    surrogate. *)
Definition encodable (s : string) : bool :=
  forallb (fun p => negb (is_surrogate p)) (codepoints s).

End Str.

(** ** Dictionaries *)

(** A Python [dict] with string keys, as the list of its items in insertion
    order; the keys are pairwise distinct. *)
Module Dict.

Fixpoint lookup {V : Type} (key : string) (d : list (string * V)) : option V :=
  match d with
  | [] => None
  | (k, v) :: d' => if String.eqb k key then Some v else lookup key d'
  end.

End Dict.

(** ** The document tree (bs4) *)

(** An attribute value: [class] and the other multi-valued attributes are
    lists of tokens, every other attribute is a string. *)
Inductive AttrValue : Type :=
| AttrStr (s : string)
| AttrList (tokens : list string).

(** A node of the parsed document: a text node or a tag with its attribute
    dictionary and its children in document order.  The [BeautifulSoup]
    object itself is the tag named [[document]]. *)
Inductive PageElement : Type :=
| NavigableString (s : string)
| Tag (name : string) (attrs : list (string * AttrValue)) (contents : list PageElement).

Module Soup.

Definition is_Tag (e : PageElement) : bool :=
  match e with Tag _ _ _ => true | NavigableString _ => false end.

Definition contents (e : PageElement) : list PageElement :=
  match e with Tag _ _ cs => cs | NavigableString _ => [] end.

(** [tag.descendants]: every node below [e], in document order. *)
Fixpoint descendants (e : PageElement) : list PageElement :=
  match e with
  | NavigableString _ => []
  | Tag _ _ cs => flat_map (fun c => c :: descendants c) cs
  end.

(** [tag.get(key)] *)
Definition get (e : PageElement) (key : string) : option AttrValue :=
  match e with
  | Tag _ attrs _ => Dict.lookup key attrs
  | NavigableString _ => None
  end.

(** How a search compares an attribute value with the string asked for: a
    plain value must equal it; a multi-valued one matches when one of its
    tokens equals it, or when the tokens joined by single spaces do; a
    missing attribute matches only the empty string. *)
Definition matches (value : option AttrValue) (match_against : string) : bool :=
  match value with
  | None => String.eqb match_against ""
  | Some (AttrStr s) => String.eqb s match_against
  | Some (AttrList tokens) =>
      existsb (fun item => String.eqb item match_against) tokens
      || String.eqb (Str.join " " tokens) match_against
  end.

(** Does [e] pass the filter [(name, {"class": cls})]? *)
Definition search_tag (name cls : string) (e : PageElement) : bool :=
  match e with
  | Tag n _ _ => String.eqb n name && matches (get e "class") cls
  | NavigableString _ => false
  end.

(** [tag.find_all(name, {"class": cls}, recursive=...)] *)
Definition find_all (name cls : string) (recursive : bool) (e : PageElement)
  : list PageElement :=
  filter (search_tag name cls) (if recursive then descendants e else contents e).

(** [tag.find(name, {"class": cls})]: the first match below [e], if any. *)
Definition find (name cls : string) (e : PageElement) : option PageElement :=
  match find_all name cls true e with
  | [] => None
  | r :: _ => Some r
  end.

(** [tag.get_text(strip=True)]: the text nodes below [e], each stripped,
    the empty ones dropped, concatenated. *)
Definition get_text (e : PageElement) : string :=
  Str.join ""
    (filter (fun s => negb (String.eqb s ""))
       (flat_map (fun d => match d with
                           | NavigableString s => [Str.strip s]
                           | Tag _ _ _ => []
                           end)
          (descendants e))).

End Soup.

(** ** The values of [json.load] *)

(** [None], [bool], [int], [str], [list] and [dict] (keys in insertion
    order, pairwise distinct as in a Python dict).  Floats do not occur in
    the record file and are left out. *)
Inductive json : Type :=
| JNone
| JBool (b : bool)
| JInt (n : Z)
| JStr (s : string)
| JList (items : list json)
| JDict (entries : list (string * json)).

Module Python.

(** Truth value of a value in a condition. *)
Definition truthy (v : json) : bool :=
  match v with
  | JNone => false
  | JBool b => b
  | JInt n => negb (n =? 0)%Z
  | JStr s => negb (String.eqb s "")
  | JList items => match items with [] => false | _ => true end
  | JDict entries => match entries with [] => false | _ => true end
  end.

(** [a == b].  A [bool] compares as the integer 0 or 1; lists compare
    element by element; dicts compare as maps, whatever the key order. *)
Fixpoint eqb (a b : json) {struct a} : bool :=
  match a, b with
  | JNone, JNone => true
  | JBool x, JBool y => Bool.eqb x y
  | JBool x, JInt n => (n =? (if x then 1 else 0))%Z
  | JInt n, JBool x => (n =? (if x then 1 else 0))%Z
  | JInt m, JInt n => (m =? n)%Z
  | JStr s, JStr t => String.eqb s t
  | JList xs, JList ys =>
      (fix all2 (xs ys : list json) {struct xs} : bool :=
         match xs, ys with
         | [], [] => true
         | x :: xs', y :: ys' => eqb x y && all2 xs' ys'
         | _, _ => false
         end) xs ys
  | JDict d, JDict d' =>
      (length d =? length d')%nat
      && forallb (fun kv => match Dict.lookup (fst kv) d' with
                            | Some v' => eqb (snd kv) v'
                            | None => false
                            end) d
  | _, _ => false
  end.

(** [item in l] for a list [l] *)
Definition contains (l : list json) (item : json) : bool :=
  existsb (fun e => eqb e item) l.

(** [type(v).__name__] *)
Definition type_name (v : json) : string :=
  match v with
  | JNone => "NoneType"
  | JBool _ => "bool"
  | JInt _ => "int"
  | JStr _ => "str"
  | JList _ => "list"
  | JDict _ => "dict"
  end.

(** Can [json.dump(v, f, ensure_ascii=False)] write [v] to a UTF-8 text
    file?  Every string in it, the keys included, must be encodable. *)
Fixpoint encodable (v : json) : bool :=
  match v with
  | JStr s => Str.encodable s
  | JList items => forallb encodable items
  | JDict entries =>
    forallb (fun kv => Str.encodable (fst kv) && encodable (snd kv)) entries
  | JNone | JBool _ | JInt _ => true
  end.

End Python.

(** One discovery record as the script builds it:
    [{"year": ..., "month": ..., "link": ...}] *)
Definition record (year month link : string) : json :=
  JDict [("year", JStr year); ("month", JStr month); ("link", JStr link)].

(** ** The world of the script and its monad *)

Inductive Level : Type := INFO | WARNING | ERROR.

Inductive Exception : Type :=
| URLError
| ValueError (msg : string)
| TypeError (msg : string)
| KeyError
| IndexError
| AttributeError
| FileNotFoundError
| JSONDecodeError
| UnicodeEncodeError.

(** The content of [files-data.json], as [json.load] sees it: text that does
    not parse (the empty file included), or the value it decodes to. *)
Inductive FileContent : Type :=
| Unparsable
| Parsed (data : json).

Record World : Type := mkWorld {
  (** the document served at a URL, parsed; [None] when the request fails *)
  web : string -> option PageElement;
  (** [files-data.json] next to the script; [None] when it does not exist *)
  files_data : option FileContent;
  (** the lines logged so far, oldest first *)
  logged : list (Level * string)
}.

(** A computation runs in a world, ends in a value or in a raised
    exception, and leaves a world behind in both cases. *)
Definition Py (A : Type) : Type := World -> (Exception + A) * World.

Definition ret {A} (a : A) : Py A := fun w => (inr a, w).

Definition raise {A} (e : Exception) : Py A := fun w => (inl e, w).

Definition bind {A B} (c : Py A) (k : A -> Py B) : Py B :=
  fun w => match c w with
           | (inr a, w') => k a w'
           | (inl e, w') => (inl e, w')
           end.

Declare Scope py_scope.
Delimit Scope py_scope with py.
Notation "x <- c ;; k" := (bind c (fun x => k))
  (at level 61, c at next level, right associativity) : py_scope.
Notation "c ;; k" := (bind c (fun _ => k))
  (at level 61, right associativity) : py_scope.
Local Open Scope py_scope.

(** The world after one more logged line. *)
Definition emit (w : World) (lvl : Level) (msg : string) : World :=
  mkWorld (web w) (files_data w) (logged w ++ [(lvl, msg)]).

(** The loops only ever add log lines to the world. *)
Definition extends (w w' : World) : Prop :=
  web w' = web w /\ files_data w' = files_data w
  /\ exists lines, logged w' = logged w ++ lines.

Module logging.
Definition log (lvl : Level) (msg : string) : Py unit :=
  fun w => (inr tt, emit w lvl msg).
Definition info := log INFO.
Definition warning := log WARNING.
Definition error := log ERROR.
End logging.

(** *** File and network primitives *)

(** [os.path.exists(json_path)] *)
Definition os_path_exists : Py bool :=
  fun w => (inr (match files_data w with Some _ => true | None => false end), w).

(** [with open(json_path, "r") as f: json.load(f)] *)
Definition json_load : Py json :=
  fun w => match files_data w with
           | Some (Parsed data) => (inr data, w)
           | Some Unparsable => (inl JSONDecodeError, w)
           | None => (inl FileNotFoundError, w)
           end.

(** [with open(output_path, "w", encoding="utf-8") as f:
    json.dump(v, f, ensure_ascii=False, indent=2)].  Opening the file cuts it
    to nothing; the dump then writes [v] piece by piece, and raises at the
    first string that cannot be encoded, which leaves a text that stops in
    the middle of the value and does not parse. *)
Definition json_dump (v : json) : Py unit :=
  fun w => if Python.encodable v
           then (inr tt, mkWorld (web w) (Some (Parsed v)) (logged w))
           else (inl UnicodeEncodeError, mkWorld (web w) (Some Unparsable) (logged w)).

(** [BeautifulSoup(urlopen(Request(url, ...)).read(), "html.parser")] *)
Definition urlopen (url : string) : Py PageElement :=
  fun w => match web w url with
           | Some soup => (inr soup, w)
           | None => (inl URLError, w)
           end.

(** *** Dynamic operations that can raise *)

(** The outcome of a library call, taken into the monad. *)
Definition call {A} (r : Exception + A) : Py A := fun w => (r, w).

(** [data[0]] *)
Definition subscript0 (data : json) : Py json :=
  match data with
  | JList (x :: _) => ret x
  | JList [] => raise IndexError
  | JStr (String c _) => ret (JStr (String c ""))
  | JStr EmptyString => raise IndexError
  | JDict _ => raise KeyError
  | JNone | JBool _ | JInt _ =>
    raise (TypeError ("'" ++ Python.type_name data ++ "' object is not subscriptable"))
  end.

(** [entry.get(key, default)]; only a dict has the method. *)
Definition dict_get (entry : json) (key : string) (default : json) : Py json :=
  match entry with
  | JDict d => ret (match Dict.lookup key d with Some v => v | None => default end)
  | _ => raise AttributeError
  end.

(** The items [for item in v] runs through. *)
Definition iter (v : json) : Py (list json) :=
  match v with
  | JList items => ret items
  | JDict d => ret (map (fun kv => JStr (fst kv)) d)
  | JStr s => ret (map JStr (Str.chars s))
  | JNone | JBool _ | JInt _ =>
    raise (TypeError ("'" ++ Python.type_name v ++ "' object is not iterable"))
  end.

(** ** The script *)

Definition BASE_URL : string := "https://datos.madrid.es".

Definition MAIN_URL : string :=
  "https://datos.madrid.es/portal/site/egob/menuitem.c05c1f754a33a9fbe4b2e4b284f1a5a0/"
  ++ "?vgnextoid=33cb30c367e78410VgnVCM1000000b205a0aRCRD"
  ++ "&vgnextchannel=374512b9ace9f310VgnVCM100000171f5a0aRCRD".

(** [get_last_data()], lines 20-43 *)
Definition get_last_data : Py (json * json) :=
  present <- os_path_exists ;;
  if negb present then
    logging.error "The JSON file does not exist." ;;
    ret (JStr "", JStr "")
  else
    data <- json_load ;;
    if negb (Python.truthy data) then
      logging.error "No data found in the JSON file." ;;
      ret (JStr "", JStr "")
    else
      last_entry <- subscript0 data ;;
      last_year <- dict_get last_entry "year" (JStr "") ;;
      last_month <- dict_get last_entry "month" (JStr "") ;;
      ret (last_year, last_month).

(** How an iteration of a [for] loop ends. *)
Inductive Flow : Type := Continue | Break.

Section Walk.

(** [urllib.parse.urljoin], the resolution of a reference against a base
    URL: the resolved URL, or the exception it raises on a reference it
    cannot split ([ValueError] on "//[", for one). *)
Variable urljoin : string -> string -> Exception + string.

(** The checkpoint the walk stops at. *)
Variables last_year last_month : json.

(** The loops carry the two variables they assign: [stop_processing] and
    [links]. *)
Definition Vars : Type := (bool * list json)%type.

(** Body of [for m in months], lines 102-142 *)
Definition month_body (year_value : string) (m : PageElement) (vars : Vars)
  : Py (Flow * Vars) :=
  if negb (Soup.is_Tag m) then
    logging.warning ("Month element is not a valid Tag in year " ++ year_value
                     ++ ". Skipping.") ;;
    ret (Continue, vars)
  else
    match Soup.find "p" "info-title" m with
    | None => ret (Continue, vars)
    | Some month_text =>
      let month_value := Soup.get_text month_text in
      if Python.truthy last_year && Python.truthy last_month
         && Python.eqb (JStr year_value) last_year
         && Python.eqb (JStr month_value) last_month
      then
        logging.info "The rest of the data has already been processed. Exiting." ;;
        ret (Break, (true, snd vars))
      else
        match Soup.find "li" "asociada-item" m with
        | None =>
          logging.warning ("Links container not found in " ++ year_value ++ " "
                           ++ month_value ++ ". Skipping.") ;;
          ret (Continue, vars)
        | Some links_li =>
          match Soup.find "a" "asociada-link ico-zip" links_li with
          | None =>
            logging.warning ("ZIP link not found in " ++ year_value ++ " "
                             ++ month_value ++ ". Skipping.") ;;
            ret (Continue, vars)
          | Some zip_link =>
            match Soup.get zip_link "href" with
            | Some (AttrStr href) =>
              full_url <- call (urljoin BASE_URL href) ;;
              logging.info (year_value ++ " " ++ month_value ++ ": " ++ full_url) ;;
              ret (Continue,
                   (fst vars, snd vars ++ [record year_value month_value full_url]))
            | _ =>
              logging.warning ("href attribute not found in ZIP link for "
                               ++ year_value ++ " " ++ month_value ++ ". Skipping.") ;;
              ret (Continue, vars)
            end
          end
        end
    end.

(** [for m in months: ...], lines 101-142 *)
Fixpoint for_months (year_value : string) (months : list PageElement) (vars : Vars)
  : Py Vars :=
  match months with
  | [] => ret vars
  | m :: rest =>
    r <- month_body year_value m vars ;;
    match fst r with
    | Continue => for_months year_value rest (snd r)
    | Break => ret (snd r)
    end
  end.

(** Body of [for year in years], lines 89-145 *)
Definition year_body (year : PageElement) (vars : Vars) : Py (Flow * Vars) :=
  if negb (Soup.is_Tag year) then
    raise (TypeError "Year element is not a valid Tag.")
  else
    match Soup.find "p" "info-title" year with
    | None => raise (ValueError "Year title not found.")
    | Some year_text =>
      let year_value := Soup.get_text year_text in
      let months := Soup.find_all "li" "asociada-item" true year in
      match months with
      | [] => raise (ValueError ("No months found for year " ++ year_value ++ "."))
      | _ :: _ =>
        vars' <- for_months year_value months vars ;;
        if fst vars' then ret (Break, vars') else ret (Continue, vars')
      end
    end.

(** [for year in years: ...], lines 88-145 *)
Fixpoint for_years (years : list PageElement) (vars : Vars) : Py Vars :=
  match years with
  | [] => ret vars
  | year :: rest =>
    r <- year_body year vars ;;
    match fst r with
    | Continue => for_years rest (snd r)
    | Break => ret (snd r)
    end
  end.

End Walk.

(** Lines 67-145 of [get_data]: fetch the page and collect [links]. *)
Definition walk (urljoin : string -> string -> Exception + string)
    (url : string) (last_year last_month : json) : Py (list json) :=
  soup <- urlopen url ;;
  logging.info "Retrieving CSV file links..." ;;
  match Soup.find "ul" "asociada-list trancateList docs" soup with
  | None => raise (ValueError "Main document list container not found.")
  | Some main =>
    if negb (Soup.is_Tag main) then
      raise (ValueError "Main document list container not found.")
    else
      let years := Soup.find_all "li" "asociada-item" false main in
      match years with
      | [] => raise (ValueError "No year elements found.")
      | _ :: _ =>
        vars <- for_years urljoin last_year last_month years (false, []) ;;
        ret (snd vars)
      end
  end.

(** [all_links], line 153 *)
Definition merge (links existing_links : list json) : list json :=
  links ++ filter (fun item => negb (Python.contains links item)) existing_links.

(** Lines 147-157 of [get_data]: merge [links] into the record file. *)
Definition save (links : list json) : Py unit :=
  present <- os_path_exists ;;
  all_links <- (if present then
                  existing_links <- json_load ;;
                  items <- iter existing_links ;;
                  ret (merge links items)
                else ret links) ;;
  json_dump (JList all_links).

(** [get_data(url, last_year, last_month)], lines 46-157 *)
Definition get_data (urljoin : string -> string -> Exception + string)
    (url : string) (last_year last_month : json) : Py unit :=
  links <- walk urljoin url last_year last_month ;;
  save links.

(** [main()], lines 177-179 *)
Definition main (urljoin : string -> string -> Exception + string) : Py unit :=
  checkpoint <- get_last_data ;;
  get_data urljoin MAIN_URL (fst checkpoint) (snd checkpoint).

(** ** Building documents *)

Module Html.

Definition text (s : string) : PageElement := NavigableString s.

Definition el (name : string) (classes : list string) (cs : list PageElement)
  : PageElement :=
  Tag name (match classes with [] => [] | _ => [("class", AttrList classes)] end) cs.

(** [<p class="info-title">label</p>] *)
Definition title (label : string) : PageElement :=
  el "p" ["info-title"] [text label].

(** [<a class="asociada-link ico-zip" href="...">CSV</a>] *)
Definition zip_anchor (href : string) : PageElement :=
  Tag "a" [("class", AttrList ["asociada-link"; "ico-zip"]); ("href", AttrStr href)]
      [text "CSV"].

(** The link container of a month. *)
Definition link_item (href : string) : PageElement :=
  el "li" ["asociada-item"] [zip_anchor href].

(** A month entry: its title and one link container in a nested list. *)
Definition month_item (label href : string) : PageElement :=
  el "li" ["asociada-item"] [title label; el "ul" [] [link_item href]].

(** A year entry: its title and the months in a nested list. *)
Definition year_item (label : string) (months : list PageElement) : PageElement :=
  el "li" ["asociada-item"] [title label; el "ul" [] months].

(** The listing container. *)
Definition listing (years : list PageElement) : PageElement :=
  el "ul" ["asociada-list"; "trancateList"; "docs"] years.

(** A whole page around a body. *)
Definition page (body : list PageElement) : PageElement :=
  Tag "[document]" [] [el "html" [] [el "body" [] body]].

End Html.

(** ** The data model of the specification *)

Module Spec.

Record DiscoveryRecord : Type := mkRecord {
  year : string;
  month : string;
  link : string
}.

(** Structural equality, on all three fields. *)
Definition same (a b : DiscoveryRecord) : bool :=
  String.eqb (year a) (year b) && String.eqb (month a) (month b)
  && String.eqb (link a) (link b).

(** The rebuilt sequence, in the words of the specification:
    [newly_found ++ filter(not in newly_found, previously_stored)]. *)
Definition merge (newly_found previously_stored : list DiscoveryRecord)
  : list DiscoveryRecord :=
  newly_found
  ++ filter (fun r => negb (existsb (same r) newly_found)) previously_stored.

(** A record as the file holds it. *)
Definition to_json (r : DiscoveryRecord) : json :=
  record (year r) (month r) (link r).

End Spec.

(** ** What the walk reads off one entry *)

(** The target of the ZIP anchor of a month entry, when the entry has a link
    container, the container a ZIP anchor and the anchor a string [href]. *)
Definition zip_href (m : PageElement) : option string :=
  match Soup.find "li" "asociada-item" m with
  | None => None
  | Some links_li =>
    match Soup.find "a" "asociada-link ico-zip" links_li with
    | None => None
    | Some zip_link =>
      match Soup.get zip_link "href" with
      | Some (AttrStr href) => Some href
      | _ => None
      end
    end
  end.

(** The warning logged for a titled entry without such a target. *)
Definition skip_warning (year_value month_value : string) (m : PageElement) : string :=
  match Soup.find "li" "asociada-item" m with
  | None =>
    "Links container not found in " ++ year_value ++ " " ++ month_value ++ ". Skipping."
  | Some links_li =>
    match Soup.find "a" "asociada-link ico-zip" links_li with
    | None => "ZIP link not found in " ++ year_value ++ " " ++ month_value ++ ". Skipping."
    | Some _ =>
      "href attribute not found in ZIP link for " ++ year_value ++ " " ++ month_value
      ++ ". Skipping."
    end
  end.

(** The early-stop test of line 114. *)
Definition at_checkpoint (last_year last_month : json) (year_value month_value : string)
  : bool :=
  Python.truthy last_year && Python.truthy last_month
  && Python.eqb (JStr year_value) last_year
  && Python.eqb (JStr month_value) last_month.

(** Does a candidate entry carry a title element? *)
Definition titled (m : PageElement) : bool :=
  match Soup.find "p" "info-title" m with Some _ => true | None => false end.

(** The records one month candidate contributes when the walk does not stop
    at it. *)
Definition month_links (urljoin : string -> string -> Exception + string)
    (year_value : string) (m : PageElement) : list json :=
  match Soup.find "p" "info-title" m with
  | None => []
  | Some month_text =>
    match zip_href m with
    | Some href =>
      match urljoin BASE_URL href with
      | inr full_url => [record year_value (Soup.get_text month_text) full_url]
      | inl _ => []
      end
    | None => []
    end
  end.

(** Does [urljoin] resolve the link of a month candidate, if the walk gets
    to ask for it? *)
Definition month_resolves (urljoin : string -> string -> Exception + string)
    (m : PageElement) : bool :=
  match Soup.find "p" "info-title" m with
  | None => true
  | Some _ =>
    match zip_href m with
    | Some href => match urljoin BASE_URL href with inr _ => true | inl _ => false end
    | None => true
    end
  end.

(** Does it for every month candidate of a year entry? *)
Definition year_resolves (urljoin : string -> string -> Exception + string)
    (y : PageElement) : bool :=
  forallb (month_resolves urljoin) (Soup.find_all "li" "asociada-item" true y).

(** The records of a whole year entry in a walk that never stops. *)
Definition year_links (urljoin : string -> string -> Exception + string) (y : PageElement)
  : list json :=
  match Soup.find "p" "info-title" y with
  | None => []
  | Some year_text =>
    flat_map (month_links urljoin (Soup.get_text year_text))
             (Soup.find_all "li" "asociada-item" true y)
  end.

(** A year entry the walk accepts: it has a title and at least one month
    candidate. *)
Definition year_ok (y : PageElement) : bool :=
  titled y && match Soup.find_all "li" "asociada-item" true y with
              | [] => false
              | _ :: _ => true
              end.

(** A month candidate that does not trigger the early stop under the year
    label [year_value]. *)
Definition month_clear (last_year last_month : json) (year_value : string)
    (m : PageElement) : bool :=
  match Soup.find "p" "info-title" m with
  | Some month_text =>
    negb (at_checkpoint last_year last_month year_value (Soup.get_text month_text))
  | None => true
  end.

(** A year entry none of whose month candidates triggers the early stop. *)
Definition year_clear (last_year last_month : json) (y : PageElement) : bool :=
  match Soup.find "p" "info-title" y with
  | Some year_text =>
    forallb (month_clear last_year last_month (Soup.get_text year_text))
            (Soup.find_all "li" "asociada-item" true y)
  | None => true
  end.

(** The sequence the record file stands for: the stored list, or the empty
    sequence when the file does not exist yet. *)
Definition stored (w : World) : option (list json) :=
  match files_data w with
  | None => Some []
  | Some (Parsed (JList items)) => Some items
  | Some _ => None
  end.

(** ** Example documents and worlds *)

Module Examples.

(** A stand-in for [urljoin] on path-absolute references: the origin followed
    by the path; and the [ValueError] of [urljoin] on the reference "//[". *)
Definition join_path (base ref : string) : Exception + string :=
  if String.eqb ref "//[" then inl (ValueError "Invalid IPv6 URL")
  else inr (base ++ ref)%string.

(** Years 2025 (months 03, 02, 01) and 2024 (month 12). *)
Definition listing_2025_2024 : PageElement :=
  Html.page [Html.listing [
    Html.year_item "2025" [Html.month_item "03" "/csv/2025-03.zip";
                           Html.month_item "02" "/csv/2025-02.zip";
                           Html.month_item "01" "/csv/2025-01.zip"];
    Html.year_item "2024" [Html.month_item "12" "/csv/2024-12.zip"]]].

(** A world that serves [doc] at every URL. *)
Definition serving (doc : PageElement) (store : option FileContent) : World :=
  mkWorld (fun _ => Some doc) store [].

(** A year entry with no title element anywhere below it. *)
Definition year_without_title : PageElement :=
  Html.el "li" ["asociada-item"] [Html.el "ul" [] [Html.link_item "/csv/2024-12.zip"]].

(** Year 2025 (months 03, 02), then a year entry without a title. *)
Definition listing_with_untitled_year : PageElement :=
  Html.page [Html.listing [
    Html.year_item "2025" [Html.month_item "03" "/csv/2025-03.zip";
                           Html.month_item "02" "/csv/2025-02.zip"];
    year_without_title]].

(** A year entry with no title element of its own: the one title below it
    is the title of its month. *)
Definition year_titled_by_month : PageElement :=
  Html.el "li" ["asociada-item"]
          [Html.el "ul" [] [Html.month_item "03" "/csv/2025-03.zip"]].

Definition listing_with_year_titled_by_month : PageElement :=
  Html.page [Html.listing [year_titled_by_month]].

(** A month entry with a title and no link container. *)
Definition month_without_link (label : string) : PageElement :=
  Html.el "li" ["asociada-item"] [Html.title label].

(** Year 2025 with month 02, which has no link yet, and month 01. *)
Definition listing_with_unlinked_month : PageElement :=
  Html.page [Html.listing [
    Html.year_item "2025" [month_without_link "02";
                           Html.month_item "01" "/csv/2025-01.zip"]]].

Definition rec_2025_03 : Spec.DiscoveryRecord :=
  Spec.mkRecord "2025" "03" "https://datos.madrid.es/csv/2025-03.zip".
Definition rec_2025_02 : Spec.DiscoveryRecord :=
  Spec.mkRecord "2025" "02" "https://datos.madrid.es/csv/2025-02.zip".
Definition rec_2025_01 : Spec.DiscoveryRecord :=
  Spec.mkRecord "2025" "01" "https://datos.madrid.es/csv/2025-01.zip".
Definition rec_2024_12 : Spec.DiscoveryRecord :=
  Spec.mkRecord "2024" "12" "https://datos.madrid.es/csv/2024-12.zip".

End Examples.

(** ** Running the monad *)

Ltac run :=
  unfold bind, ret, raise, logging.error, logging.warning, logging.info,
    logging.log, emit, call, os_path_exists, json_load, urlopen; cbn [fst snd].

Lemma world_eta (w : World) :
  mkWorld (web w) (files_data w) (logged w) = w.
Proof. destruct w; reflexivity. Qed.

(** ** Equality of records *)

Lemma same_refl (r : Spec.DiscoveryRecord) : Spec.same r r = true.
Proof. unfold Spec.same. now rewrite !String.eqb_refl. Qed.

Lemma same_eq (a b : Spec.DiscoveryRecord) : Spec.same a b = true <-> a = b.
Proof.
  split; [| intros ->; apply same_refl].
  unfold Spec.same. intros H.
  apply andb_true_iff in H as [H Hl]. apply andb_true_iff in H as [Hy Hm].
  apply String.eqb_eq in Hy, Hm, Hl.
  destruct a, b; cbn in *; congruence.
Qed.

Lemma eqb_record (y m l y' m' l' : string) :
  Python.eqb (record y m l) (record y' m' l')
  = String.eqb y y' && String.eqb m m' && String.eqb l l'.
Proof. cbn. now rewrite andb_true_r, andb_assoc. Qed.

Lemma eqb_to_json (a b : Spec.DiscoveryRecord) :
  Python.eqb (Spec.to_json a) (Spec.to_json b) = Spec.same a b.
Proof. apply eqb_record. Qed.

Lemma contains_to_json (new : list Spec.DiscoveryRecord) (r : Spec.DiscoveryRecord) :
  Python.contains (map Spec.to_json new) (Spec.to_json r)
  = existsb (Spec.same r) new.
Proof.
  unfold Python.contains. induction new as [| a new IH]; [reflexivity |].
  cbn [map existsb]. rewrite IH, eqb_to_json. f_equal.
  unfold Spec.same.
  now rewrite (String.eqb_sym (Spec.year a)), (String.eqb_sym (Spec.month a)),
    (String.eqb_sym (Spec.link a)).
Qed.

Lemma merge_to_json (new old : list Spec.DiscoveryRecord) :
  merge (map Spec.to_json new) (map Spec.to_json old)
  = map Spec.to_json (Spec.merge new old).
Proof.
  unfold merge, Spec.merge. rewrite map_app. f_equal.
  induction old as [| r old IH]; [reflexivity |].
  cbn [map filter]. rewrite contains_to_json.
  destruct (existsb (Spec.same r) new); cbn [negb map]; now rewrite IH.
Qed.

(** ** The save step *)

Lemma json_dump_ok (v : json) (w : World) :
  Python.encodable v = true ->
  json_dump v w = (inr tt, mkWorld (web w) (Some (Parsed v)) (logged w)).
Proof. unfold json_dump. now intros ->. Qed.

Lemma json_dump_fails (v : json) (w : World) :
  Python.encodable v = false ->
  json_dump v w = (inl UnicodeEncodeError, mkWorld (web w) (Some Unparsable) (logged w)).
Proof. unfold json_dump. now intros ->. Qed.

Lemma save_existing (links existing : list json) (w : World) :
  files_data w = Some (Parsed (JList existing)) ->
  save links w = json_dump (JList (merge links existing)) w.
Proof. destruct w; cbn; intros ->. reflexivity. Qed.

Lemma save_missing (links : list json) (w : World) :
  files_data w = None ->
  save links w = json_dump (JList links) w.
Proof. destruct w; cbn; intros ->. reflexivity. Qed.

Lemma save_stored (links existing : list json) (w : World) :
  stored w = Some existing ->
  save links w = json_dump (JList (merge links existing)) w.
Proof.
  unfold stored. destruct (files_data w) as [[| data] |] eqn:Hf; try discriminate.
  - destruct data; try discriminate. intros [= <-]. now apply save_existing.
  - intros [= <-]. unfold merge. cbn [filter]. rewrite app_nil_r. now apply save_missing.
Qed.

Lemma merge_nil (existing : list json) : merge [] existing = existing.
Proof.
  unfold merge. cbn. induction existing as [| x l IH]; cbn; [reflexivity |].
  now rewrite IH.
Qed.

(** Records are written whenever their three strings can be. *)
Lemma encodable_record (y m l : string) :
  Python.encodable (record y m l)
  = Str.encodable y && Str.encodable m && Str.encodable l.
Proof. cbn. now rewrite andb_true_r, andb_assoc. Qed.

(** ** The document tree *)


Lemma in_descendants_Tag name attrs cs x :
  In x (Soup.descendants (Tag name attrs cs))
  <-> exists c, In c cs /\ (x = c \/ In x (Soup.descendants c)).
Proof.
  cbn [Soup.descendants]. rewrite in_flat_map. split.
  - intros (c & Hc & Hx). exists c. split; [exact Hc |].
    destruct Hx as [-> | Hx]; auto.
  - intros (c & Hc & [-> | Hx]); exists c; split; auto; [now left | now right].
Qed.


Lemma filter_nil_iff {A} (f : A -> bool) (l : list A) :
  filter f l = [] <-> forall x, In x l -> f x = false.
Proof.
  induction l as [| a l IH]; cbn; [tauto |].
  destruct (f a) eqn:E.
  - split; [discriminate |]. intros H. specialize (H a (or_introl eq_refl)). congruence.
  - rewrite IH. split.
    + intros H x [<- | Hx]; auto.
    + intros H x Hx. apply H. now right.
Qed.

Lemma in_find_all name cls recursive e x :
  In x (Soup.find_all name cls recursive e)
  <-> In x (if recursive then Soup.descendants e else Soup.contents e)
      /\ Soup.search_tag name cls x = true.
Proof. unfold Soup.find_all. apply filter_In. Qed.

Lemma find_Some name cls e r :
  Soup.find name cls e = Some r ->
  In r (Soup.descendants e) /\ Soup.search_tag name cls r = true.
Proof.
  unfold Soup.find. intros H.
  apply (in_find_all name cls true e r).
  destruct (Soup.find_all name cls true e); [discriminate |].
  injection H as ->. now left.
Qed.

Lemma find_Some_is_Tag name cls e r :
  Soup.find name cls e = Some r -> Soup.is_Tag e = true.
Proof.
  intros H. apply find_Some in H as [H _]. destruct e; [contradiction | reflexivity].
Qed.

Lemma titled_is_Tag m : titled m = true -> Soup.is_Tag m = true.
Proof.
  unfold titled. destruct (Soup.find "p" "info-title" m) eqn:E; [| discriminate].
  intros _. eapply find_Some_is_Tag, E.
Qed.

(** ** One iteration of the month loop *)

Section Loops.

Variable urljoin : string -> string -> Exception + string.
Variables last_year last_month : json.

Local Abbreviation month_body' := (month_body urljoin last_year last_month).
Local Abbreviation for_months' := (for_months urljoin last_year last_month).
Local Abbreviation year_body' := (year_body urljoin last_year last_month).
Local Abbreviation for_years' := (for_years urljoin last_year last_month).

(** A candidate without a title element leaves everything as it was. *)
Lemma month_body_untitled yv m vars w :
  Soup.is_Tag m = true -> titled m = false ->
  month_body' yv m vars w = (inr (Continue, vars), w).
Proof.
  unfold titled, month_body. intros -> H.
  destruct (Soup.find "p" "info-title" m); [discriminate | reflexivity].
Qed.

(** The early stop: nothing is appended, the flag is set, the loop left. *)
Lemma month_body_stop yv m t vars w :
  Soup.find "p" "info-title" m = Some t ->
  at_checkpoint last_year last_month yv (Soup.get_text t) = true ->
  month_body' yv m vars w
  = (inr (Break, (true, snd vars)),
     emit w INFO "The rest of the data has already been processed. Exiting.").
Proof.
  intros Ht Hstop. unfold month_body.
  rewrite (find_Some_is_Tag _ _ _ _ Ht), Ht. cbn [negb].
  unfold at_checkpoint in Hstop. rewrite Hstop. reflexivity.
Qed.

(** A titled entry with a ZIP anchor asks [urljoin] for the link: it appends
    the record when the link resolves, and raises what [urljoin] raises. *)
Lemma month_body_href yv m t href vars w :
  Soup.find "p" "info-title" m = Some t ->
  at_checkpoint last_year last_month yv (Soup.get_text t) = false ->
  zip_href m = Some href ->
  month_body' yv m vars w
  = match urljoin BASE_URL href with
    | inr full_url =>
      (inr (Continue, (fst vars, snd vars ++ [record yv (Soup.get_text t) full_url])),
       emit w INFO (yv ++ " " ++ Soup.get_text t ++ ": " ++ full_url))
    | inl e => (inl e, w)
    end.
Proof.
  intros Ht Hstop Hz. unfold month_body.
  rewrite (find_Some_is_Tag _ _ _ _ Ht), Ht. cbn [negb].
  unfold at_checkpoint in Hstop. rewrite Hstop.
  unfold zip_href in Hz.
  destruct (Soup.find "li" "asociada-item" m) as [lc |]; [| discriminate].
  destruct (Soup.find "a" "asociada-link ico-zip" lc) as [a |]; [| discriminate].
  destruct (Soup.get a "href") as [[h | l] |]; try discriminate.
  injection Hz as ->. unfold bind, call.
  now destruct (urljoin BASE_URL href).
Qed.

(** A titled entry without one is skipped with a warning. *)
Lemma month_body_skip yv m t vars w :
  Soup.find "p" "info-title" m = Some t ->
  at_checkpoint last_year last_month yv (Soup.get_text t) = false ->
  zip_href m = None ->
  month_body' yv m vars w
  = (inr (Continue, vars), emit w WARNING (skip_warning yv (Soup.get_text t) m)).
Proof.
  intros Ht Hstop Hz. unfold month_body.
  rewrite (find_Some_is_Tag _ _ _ _ Ht), Ht. cbn [negb].
  unfold at_checkpoint in Hstop. rewrite Hstop.
  unfold zip_href in Hz. unfold skip_warning.
  destruct (Soup.find "li" "asociada-item" m) as [lc |]; [| reflexivity].
  destruct (Soup.find "a" "asociada-link ico-zip" lc) as [a |]; [| reflexivity].
  destruct (Soup.get a "href") as [[h | l] |]; try discriminate; reflexivity.
Qed.

(** The outcomes of an iteration in one equation. *)
Lemma month_body_eq yv m vars w :
  month_body' yv m vars w
  = match Soup.find "p" "info-title" m with
    | None =>
      (inr (Continue, vars),
       if Soup.is_Tag m then w
       else emit w WARNING ("Month element is not a valid Tag in year " ++ yv
                            ++ ". Skipping."))
    | Some t =>
      if at_checkpoint last_year last_month yv (Soup.get_text t) then
        (inr (Break, (true, snd vars)),
         emit w INFO "The rest of the data has already been processed. Exiting.")
      else
        match zip_href m with
        | Some href =>
          match urljoin BASE_URL href with
          | inr full_url =>
            (inr (Continue,
                  (fst vars, snd vars ++ [record yv (Soup.get_text t) full_url])),
             emit w INFO (yv ++ " " ++ Soup.get_text t ++ ": " ++ full_url))
          | inl e => (inl e, w)
          end
        | None =>
          (inr (Continue, vars), emit w WARNING (skip_warning yv (Soup.get_text t) m))
        end
    end.
Proof.
  destruct (Soup.find "p" "info-title" m) as [t |] eqn:Ht.
  - destruct (at_checkpoint last_year last_month yv (Soup.get_text t)) eqn:Hs.
    + now apply month_body_stop with t.
    + destruct (zip_href m) as [h |] eqn:Hz.
      * now apply month_body_href.
      * now apply month_body_skip.
  - destruct (Soup.is_Tag m) eqn:Hm.
    + apply month_body_untitled; [exact Hm |]. unfold titled. now rewrite Ht.
    + unfold month_body. rewrite Hm. reflexivity.
Qed.

(** ** The month loop *)

Lemma extends_refl w : extends w w.
Proof. repeat split. exists []. now rewrite app_nil_r. Qed.

Lemma extends_emit w w' lvl msg : extends w w' -> extends w (emit w' lvl msg).
Proof.
  intros (Hw & Hf & lines & Hl). repeat split; cbn; try assumption.
  exists (lines ++ [(lvl, msg)]). now rewrite Hl, app_assoc.
Qed.

Lemma extends_trans w1 w2 w3 : extends w1 w2 -> extends w2 w3 -> extends w1 w3.
Proof.
  intros (Hw & Hf & l1 & Hl) (Hw' & Hf' & l2 & Hl'). repeat split; try congruence.
  exists (l1 ++ l2). now rewrite Hl', Hl, app_assoc.
Qed.

Lemma month_body_extends yv m vars w :
  extends w (snd (month_body' yv m vars w)).
Proof.
  rewrite month_body_eq.
  destruct (Soup.find "p" "info-title" m) as [t |].
  - destruct (at_checkpoint _ _ _ _); [| destruct (zip_href m) as [h |];
      [destruct (urljoin BASE_URL h) |]]; cbn [snd];
      try apply extends_refl; apply extends_emit, extends_refl.
  - destruct (Soup.is_Tag m); cbn [snd];
      [apply extends_refl | apply extends_emit, extends_refl].
Qed.

(** Unfolding the loop by one candidate. *)
Lemma for_months_cons yv m rest vars w :
  for_months' yv (m :: rest) vars w
  = match month_body' yv m vars w with
    | (inr (Continue, vars'), w') => for_months' yv rest vars' w'
    | (inr (Break, vars'), w') => (inr vars', w')
    | (inl e, w') => (inl e, w')
    end.
Proof.
  cbn [for_months]. unfold bind.
  destruct (month_body' yv m vars w) as [[e | [[|] vars']] w']; reflexivity.
Qed.

(** However the loop ends, it only added log lines. *)
Lemma for_months_extends yv months : forall vars w,
  extends w (snd (for_months' yv months vars w)).
Proof.
  induction months as [| m rest IH]; intros vars w; [apply extends_refl |].
  rewrite for_months_cons.
  pose proof (month_body_extends yv m vars w) as Hext.
  destruct (month_body' yv m vars w) as [[e | [[|] v]] w1]; cbn [snd] in *;
    try exact Hext.
  eapply extends_trans; [exact Hext | apply IH].
Qed.

(** With no candidate at the checkpoint and every link resolved, the loop
    runs through: it leaves the flag alone and appends the records of the
    candidates, in order. *)
Lemma for_months_no_stop yv months : forall vars w,
  (forall m t, In m months -> Soup.find "p" "info-title" m = Some t ->
               at_checkpoint last_year last_month yv (Soup.get_text t) = false) ->
  forallb (month_resolves urljoin) months = true ->
  exists w',
    for_months' yv months vars w
    = (inr (fst vars, snd vars ++ flat_map (month_links urljoin yv) months), w')
    /\ extends w w'.
Proof.
  induction months as [| m rest IH]; intros vars w Hno Hres.
  - exists w. cbn. rewrite app_nil_r. destruct vars. split; [reflexivity | apply extends_refl].
  - cbn [forallb] in Hres. apply andb_true_iff in Hres as [Hm Hres].
    rewrite for_months_cons.
    pose proof (month_body_extends yv m vars w) as Hext.
    rewrite month_body_eq in Hext |- *. cbn [flat_map].
    unfold month_links at 1. unfold month_resolves in Hm.
    destruct (Soup.find "p" "info-title" m) as [t |] eqn:Ht.
    + rewrite (Hno m t (or_introl eq_refl) Ht) in Hext |- *.
      destruct (zip_href m) as [h |].
      * destruct (urljoin BASE_URL h) as [e | url]; [discriminate |]. cbn [snd] in Hext.
        edestruct (IH (fst vars, snd vars ++ [record yv (Soup.get_text t) url]))
          as (w' & -> & Hw'); [intros; eapply Hno; eauto; now right | exact Hres |].
        exists w'. cbn [fst snd]. rewrite <- app_assoc. split; [reflexivity |].
        eapply extends_trans; eassumption.
      * cbn [snd] in Hext.
        edestruct (IH vars) as (w' & -> & Hw');
          [intros; eapply Hno; eauto; now right | exact Hres |].
        exists w'. split; [reflexivity | eapply extends_trans; eassumption].
    + cbn [snd] in Hext.
      edestruct (IH vars) as (w' & -> & Hw');
        [intros; eapply Hno; eauto; now right | exact Hres |].
      exists w'. split; [reflexivity | eapply extends_trans; eassumption].
Qed.

(** When the loop returns: if it set the flag, some titled candidate sits at
    the checkpoint; and it appended at most one record per titled
    candidate. *)
Lemma for_months_inv yv months : forall vars w vars' w',
  for_months' yv months vars w = (inr vars', w') ->
  (fst vars = false -> fst vars' = true ->
   exists m t, In m months /\ Soup.find "p" "info-title" m = Some t
               /\ at_checkpoint last_year last_month yv (Soup.get_text t) = true)
  /\ (length (snd vars') <= length (snd vars) + length (filter titled months))%nat.
Proof.
  induction months as [| m rest IH]; intros vars w vars' w'.
  - cbn. intros [= <- _]. split; [congruence | lia].
  - rewrite for_months_cons, month_body_eq. cbn [filter]. unfold titled at 1.
    destruct (Soup.find "p" "info-title" m) as [t |] eqn:Ht.
    + destruct (at_checkpoint last_year last_month yv (Soup.get_text t)) eqn:Hs.
      * intros [= <- _]. cbn [fst snd length]. split; [| lia].
        intros _ _. exists m, t. repeat split; auto. now left.
      * destruct (zip_href m) as [h |]; [destruct (urljoin BASE_URL h) as [e | url] |];
          try discriminate; intros Hrun; apply IH in Hrun as [Hflag Hlen];
          cbn [fst snd length] in *; try rewrite length_app in Hlen; cbn [length] in Hlen;
          (split; [| lia]);
          intros H1 H2; destruct (Hflag H1 H2) as (m' & t' & Hin & Ht' & Hs');
          exists m', t'; repeat split; auto; now right.
    + intros Hrun. apply IH in Hrun as [Hflag Hlen]. split; [| lia].
      intros H1 H2; destruct (Hflag H1 H2) as (m' & t' & Hin & Ht' & Hs').
      exists m', t'; repeat split; auto; now right.
Qed.

(** ** The year loop *)

Lemma year_body_eq y vars w :
  year_body' y vars w
  = match Soup.find "p" "info-title" y with
    | None =>
      (inl (if Soup.is_Tag y then ValueError "Year title not found."
            else TypeError "Year element is not a valid Tag."), w)
    | Some t =>
      match Soup.find_all "li" "asociada-item" true y with
      | [] => (inl (ValueError ("No months found for year " ++ Soup.get_text t ++ ".")), w)
      | (_ :: _) as months =>
        match for_months' (Soup.get_text t) months vars w with
        | (inr vars', w') => (inr (if fst vars' then Break else Continue, vars'), w')
        | (inl e, w') => (inl e, w')
        end
      end
    end.
Proof.
  unfold year_body.
  destruct (Soup.find "p" "info-title" y) as [t |] eqn:Ht.
  - rewrite (find_Some_is_Tag _ _ _ _ Ht). cbn [negb].
    destruct (Soup.find_all "li" "asociada-item" true y) as [| m ms]; [reflexivity |].
    unfold bind.
    destruct (for_months' (Soup.get_text t) (m :: ms) vars w) as [[e | vars'] w'];
      [reflexivity |].
    now destruct (fst vars').
  - now destruct (Soup.is_Tag y).
Qed.

Lemma for_years_cons y rest vars w :
  for_years' (y :: rest) vars w
  = match year_body' y vars w with
    | (inr (Continue, vars'), w') => for_years' rest vars' w'
    | (inr (Break, vars'), w') => (inr vars', w')
    | (inl e, w') => (inl e, w')
    end.
Proof.
  cbn [for_years]. unfold bind.
  destruct (year_body' y vars w) as [[e | [[|] vars']] w']; reflexivity.
Qed.

(** A year entry under which no title or no month candidate is found raises,
    and the world stays as it is. *)
Lemma year_body_defect y vars w :
  Soup.is_Tag y = true -> year_ok y = false ->
  exists msg, year_body' y vars w = (inl (ValueError msg), w).
Proof.
  intros Htag Hbad. rewrite year_body_eq. unfold year_ok, titled in Hbad.
  destruct (Soup.find "p" "info-title" y) as [t |].
  - destruct (Soup.find_all "li" "asociada-item" true y); [| discriminate].
    eexists; reflexivity.
  - rewrite Htag. eexists; reflexivity.
Qed.

(** Whatever way the year loop ends, it only added log lines; when it
    returns, it appended at most one record per titled month candidate. *)
Lemma for_years_extends years : forall vars w,
  extends w (snd (for_years' years vars w))
  /\ forall vars' w', for_years' years vars w = (inr vars', w') ->
       (length (snd vars')
        <= length (snd vars)
           + length (filter titled
                       (flat_map (Soup.find_all "li" "asociada-item" true) years)))%nat.
Proof.
  induction years as [| y rest IH]; intros vars w.
  - cbn. split; [apply extends_refl |]. intros ? ? [= <- <-]. lia.
  - rewrite for_years_cons, year_body_eq. cbn [flat_map]. rewrite filter_app, length_app.
    destruct (Soup.find "p" "info-title" y) as [t |].
    + destruct (Soup.find_all "li" "asociada-item" true y) as [| m ms] eqn:Hms.
      * cbn [snd]. split; [apply extends_refl | discriminate].
      * pose proof (for_months_extends (Soup.get_text t) (m :: ms) vars w) as Hext.
        pose proof (for_months_inv (Soup.get_text t) (m :: ms) vars w) as Hinv.
        destruct (for_months' (Soup.get_text t) (m :: ms) vars w) as [[e | v1] w1].
        -- cbn [snd] in *. split; [exact Hext | discriminate].
        -- destruct (Hinv v1 w1 eq_refl) as [_ Hlen]. cbn [snd] in Hext.
           destruct (fst v1).
           ++ cbn [snd]. split; [exact Hext |]. intros ? ? [= <- <-]. lia.
           ++ destruct (IH v1 w1) as [Hext' Hlen']. split.
              ** eapply extends_trans; eassumption.
              ** intros v' w' Hrun. specialize (Hlen' v' w' Hrun). lia.
    + cbn [snd]. split; [apply extends_refl | discriminate].
Qed.

(** Splitting the list of years: what follows [pre] runs only if the walk
    over [pre] returned with the flag still down. *)
Lemma for_years_app pre post : forall vars w,
  fst vars = false ->
  for_years' (pre ++ post) vars w
  = match for_years' pre vars w with
    | (inr vars1, w1) =>
      if fst vars1 then (inr vars1, w1) else for_years' post vars1 w1
    | (inl e, w1) => (inl e, w1)
    end.
Proof.
  induction pre as [| y pre IH]; intros vars w Hflag.
  - cbn. now rewrite Hflag.
  - cbn [app]. rewrite !for_years_cons.
    destruct (year_body' y vars w) as [[e | [[|] v1]] w1] eqn:Hy; [reflexivity | |].
    + apply IH. rewrite year_body_eq in Hy.
      destruct (Soup.find "p" "info-title" y); [| discriminate].
      destruct (Soup.find_all "li" "asociada-item" true y); [discriminate |].
      destruct (for_months' _ _ _ _) as [[? | v] ?]; [discriminate |].
      destruct (fst v) eqn:Hv; [discriminate |]. now injection Hy as <- <-.
    + rewrite year_body_eq in Hy.
      destruct (Soup.find "p" "info-title" y); [| discriminate].
      destruct (Soup.find_all "li" "asociada-item" true y); [discriminate |].
      destruct (for_months' _ _ _ _) as [[? | v] ?]; [discriminate |].
      destruct (fst v) eqn:Hv; [| discriminate]. injection Hy as <- <-. now rewrite Hv.
Qed.

(** No candidate of any year at the checkpoint, every year well formed,
    every link resolved: the walk runs through and collects the records of
    every year, in order. *)
Lemma for_years_no_stop years : forall links w,
  (forall y, In y years -> year_ok y = true) ->
  (forall yv mv, at_checkpoint last_year last_month yv mv = false) ->
  forallb (year_resolves urljoin) years = true ->
  exists w',
    for_years' years (false, links) w
    = (inr (false, links ++ flat_map (year_links urljoin) years), w')
    /\ extends w w'.
Proof.
  induction years as [| y rest IH]; intros links w Hok Hno Hres.
  - exists w. cbn. rewrite app_nil_r. split; [reflexivity | apply extends_refl].
  - cbn [forallb] in Hres. apply andb_true_iff in Hres as [Hy' Hres].
    rewrite for_years_cons, year_body_eq. cbn [flat_map]. unfold year_links at 1.
    pose proof (Hok y (or_introl eq_refl)) as Hy. unfold year_ok, titled in Hy.
    unfold year_resolves in Hy'.
    destruct (Soup.find "p" "info-title" y) as [t |]; [| discriminate].
    destruct (Soup.find_all "li" "asociada-item" true y) as [| m ms]; [discriminate |].
    destruct (for_months_no_stop (Soup.get_text t) (m :: ms) (false, links) w)
      as (w1 & -> & Hext); [intros; apply Hno | exact Hy' |].
    cbn [fst snd].
    destruct (IH (links ++ flat_map (month_links urljoin (Soup.get_text t)) (m :: ms)) w1)
      as (w' & -> & Hext'); [intros; apply Hok; now right | exact Hno | exact Hres |].
    exists w'. rewrite <- app_assoc. split; [reflexivity |].
    eapply extends_trans; eassumption.
Qed.

End Loops.

(** ** The shape of what the loops return *)

Section Shape.

Variable urljoin : string -> string -> Exception + string.
Variables last_year last_month : json.

Lemma month_clear_spec yv m :
  month_clear last_year last_month yv m = true ->
  forall t, Soup.find "p" "info-title" m = Some t ->
            at_checkpoint last_year last_month yv (Soup.get_text t) = false.
Proof.
  unfold month_clear. intros H t Ht. rewrite Ht in H. now apply negb_true_iff.
Qed.

(** When the month loop returns, it processed a prefix [pre] of the
    candidates, none of which triggers the stop and all of whose links
    resolved, and appended their records; either the prefix is the whole list
    and the flag is left alone, or the candidate after it triggers the stop
    and the flag is set. *)
Lemma for_months_shape yv months : forall vars w vars' w',
  for_months urljoin last_year last_month yv months vars w = (inr vars', w') ->
  exists pre post,
    months = pre ++ post
    /\ forallb (month_clear last_year last_month yv) pre = true
    /\ forallb (month_resolves urljoin) pre = true
    /\ snd vars' = snd vars ++ flat_map (month_links urljoin yv) pre
    /\ (post = [] /\ fst vars' = fst vars
        \/ exists m rest, post = m :: rest
                          /\ month_clear last_year last_month yv m = false
                          /\ fst vars' = true).
Proof.
  induction months as [| m rest IH]; intros vars w vars' w'.
  - cbn. intros [= <- _]. exists [], []. cbn. rewrite app_nil_r. repeat split. now left.
  - rewrite for_months_cons, month_body_eq.
    destruct (Soup.find "p" "info-title" m) as [t |] eqn:Ht.
    + destruct (at_checkpoint last_year last_month yv (Soup.get_text t)) eqn:Hcp.
      * intros [= <- _]. exists [], (m :: rest). cbn [app forallb flat_map fst snd].
        rewrite app_nil_r. repeat split. right. exists m, rest.
        unfold month_clear. rewrite Ht, Hcp. auto.
      * assert (Hclear : month_clear last_year last_month yv m = true)
          by (unfold month_clear; now rewrite Ht, Hcp).
        destruct (zip_href m) as [h |] eqn:Hz.
        -- destruct (urljoin BASE_URL h) as [e | url] eqn:Hurl; [discriminate |].
           intros Hrun. apply IH in Hrun as (pre & post & -> & Hpre & Hres & Hlinks & Hflag).
           exists (m :: pre), post. cbn [app forallb flat_map fst snd] in *.
           rewrite Hclear, Hpre, Hres, Hlinks.
           unfold month_links at 2, month_resolves at 1. rewrite Ht, Hz, Hurl.
           rewrite <- app_assoc. auto.
        -- intros Hrun. apply IH in Hrun as (pre & post & -> & Hpre & Hres & Hlinks & Hflag).
           exists (m :: pre), post. cbn [app forallb flat_map].
           rewrite Hclear, Hpre, Hres, Hlinks.
           unfold month_links at 2, month_resolves at 1. rewrite Ht, Hz. auto.
    + assert (Hclear : month_clear last_year last_month yv m = true)
        by (unfold month_clear; now rewrite Ht).
      intros Hrun. apply IH in Hrun as (pre & post & -> & Hpre & Hres & Hlinks & Hflag).
      exists (m :: pre), post. cbn [app forallb flat_map].
      rewrite Hclear, Hpre, Hres, Hlinks.
      unfold month_links at 2, month_resolves at 1. rewrite Ht. auto.
Qed.

(** What a clear candidate contributes: records under the year label, built
    from a resolved link and from labels that are not the checkpoint. *)
Lemma month_links_emitted yv pre :
  forallb (month_clear last_year last_month yv) pre = true ->
  Forall (fun r => exists mv h full_url,
              urljoin BASE_URL h = inr full_url
              /\ r = record yv mv full_url
              /\ at_checkpoint last_year last_month yv mv = false)
         (flat_map (month_links urljoin yv) pre).
Proof.
  induction pre as [| m pre IH]; cbn [forallb flat_map]; [constructor |].
  intros H. apply andb_true_iff in H as [Hm Hpre].
  apply Forall_app. split; [| now apply IH].
  unfold month_links, month_clear in *.
  destruct (Soup.find "p" "info-title" m) as [t |]; [| constructor].
  destruct (zip_href m) as [h |]; [| constructor].
  destruct (urljoin BASE_URL h) as [e | url] eqn:Hurl; constructor; [| constructor].
  exists (Soup.get_text t), h, url.
  split; [exact Hurl |]. split; [reflexivity |]. now apply negb_true_iff.
Qed.

(** The year loop, started with the flag down: what it appended is a prefix
    of the records of the whole listing, and each appended record comes from
    a resolved link and from labels that are not the checkpoint. *)
Lemma for_years_shape years : forall links w vars' w',
  for_years urljoin last_year last_month years (false, links) w = (inr vars', w') ->
  exists new rest,
    snd vars' = links ++ new
    /\ flat_map (year_links urljoin) years = new ++ rest
    /\ Forall (fun r => exists yv mv h full_url,
                   urljoin BASE_URL h = inr full_url
                   /\ r = record yv mv full_url
                   /\ at_checkpoint last_year last_month yv mv = false) new.
Proof.
  induction years as [| y ys IH]; intros links w vars' w'.
  - cbn. intros [= <- _]. exists [], []. cbn. rewrite app_nil_r. auto.
  - rewrite for_years_cons, year_body_eq. cbn [flat_map]. unfold year_links at 1.
    destruct (Soup.find "p" "info-title" y) as [t |]; [| discriminate].
    destruct (Soup.find_all "li" "asociada-item" true y) as [| m ms]; [discriminate |].
    destruct (for_months urljoin last_year last_month (Soup.get_text t) (m :: ms)
                (false, links) w) as [[e | [flag found]] w1] eqn:Hmonths; [discriminate |].
    apply for_months_shape in Hmonths
      as (pre & post & Hsplit & Hpre & _ & Hfound & Hflag).
    cbn [fst snd] in *. subst found. rewrite Hsplit, flat_map_app.
    assert (Hem : Forall (fun r => exists yv mv h full_url,
                              urljoin BASE_URL h = inr full_url
                              /\ r = record yv mv full_url
                              /\ at_checkpoint last_year last_month yv mv = false)
                         (flat_map (month_links urljoin (Soup.get_text t)) pre)).
    { eapply Forall_impl; [| apply month_links_emitted, Hpre].
      intros r (mv & h & url & Hurl & Hr & Hcp). now exists (Soup.get_text t), mv, h, url. }
    destruct Hflag as [[-> ->] | (m' & rest' & -> & _ & ->)].
    + cbn [flat_map]. rewrite app_nil_r. intros Hrun.
      apply IH in Hrun as (new & rest & -> & Hall & Hnew).
      exists (flat_map (month_links urljoin (Soup.get_text t)) pre ++ new), rest.
      rewrite Hall, !app_assoc. repeat split. now apply Forall_app.
    + intros [= <- _]. cbn [snd].
      exists (flat_map (month_links urljoin (Soup.get_text t)) pre).
      eexists. rewrite <- app_assoc. repeat split. exact Hem.
Qed.

(** Without a checkpoint that can match, the year loop that returns has
    collected every year. *)
Lemma for_years_returns_all years : forall links w vars' w',
  (forall yv mv, at_checkpoint last_year last_month yv mv = false) ->
  for_years urljoin last_year last_month years (false, links) w = (inr vars', w') ->
  vars' = (false, links ++ flat_map (year_links urljoin) years).
Proof.
  induction years as [| y rest IH]; intros links w vars' w' Hno.
  - cbn. rewrite app_nil_r. now intros [= <- _].
  - rewrite for_years_cons, year_body_eq. cbn [flat_map]. unfold year_links at 1.
    destruct (Soup.find "p" "info-title" y) as [t |]; [| discriminate].
    destruct (Soup.find_all "li" "asociada-item" true y) as [| m ms]; [discriminate |].
    destruct (for_months urljoin last_year last_month (Soup.get_text t) (m :: ms)
                (false, links) w) as [[e | [flag found]] w1] eqn:Hmonths; [discriminate |].
    apply for_months_shape in Hmonths
      as (pre & post & Hsplit & _ & _ & Hfound & Hflag).
    cbn [fst snd] in *. subst found.
    destruct Hflag as [[-> ->] | (m' & rest' & _ & Hm' & _)].
    + rewrite app_nil_r in Hsplit. subst pre. intros Hrun.
      apply IH in Hrun; [| exact Hno]. now rewrite <- app_assoc in Hrun.
    + unfold month_clear in Hm'.
      destruct (Soup.find "p" "info-title" m'); [| discriminate].
      now rewrite Hno in Hm'.
Qed.

End Shape.

(** ** The walk and the whole run *)

Lemma walk_eq urljoin url last_year last_month w :
  walk urljoin url last_year last_month w
  = match web w url with
    | None => (inl URLError, w)
    | Some soup =>
      let w0 := emit w INFO "Retrieving CSV file links..." in
      match Soup.find "ul" "asociada-list trancateList docs" soup with
      | None => (inl (ValueError "Main document list container not found."), w0)
      | Some main =>
        match Soup.find_all "li" "asociada-item" false main with
        | [] => (inl (ValueError "No year elements found."), w0)
        | (_ :: _) as years =>
          match for_years urljoin last_year last_month years (false, []) w0 with
          | (inr vars, w') => (inr (snd vars), w')
          | (inl e, w') => (inl e, w')
          end
        end
      end
    end.
Proof.
  unfold walk. run. destruct (web w url) as [soup |]; [| reflexivity].
  destruct (Soup.find "ul" "asociada-list trancateList docs" soup) as [main |] eqn:Hm;
    [| reflexivity].
  apply find_Some in Hm as [_ Hm].
  destruct main as [? | n a cs]; [discriminate |]. cbn [Soup.is_Tag negb].
  destruct (Soup.find_all "li" "asociada-item" false (Tag n a cs)); [reflexivity |].
  destruct (for_years _ _ _ _ _ _) as [[e | v] w']; reflexivity.
Qed.

Lemma walk_extends urljoin url last_year last_month w :
  extends w (snd (walk urljoin url last_year last_month w)).
Proof.
  rewrite walk_eq. destruct (web w url) as [soup |]; [| apply extends_refl].
  cbv zeta.
  destruct (Soup.find "ul" "asociada-list trancateList docs" soup) as [main |];
    [| apply extends_emit, extends_refl].
  destruct (Soup.find_all "li" "asociada-item" false main) as [| y ys];
    [apply extends_emit, extends_refl |].
  pose proof (proj1 (for_years_extends urljoin last_year last_month (y :: ys) (false, [])
                       (emit w INFO "Retrieving CSV file links..."))) as H.
  destruct (for_years _ _ _ _ _ _) as [[e | v] w']; cbn [snd] in *;
    (eapply extends_trans; [apply extends_emit, extends_refl | exact H]).
Qed.

Lemma get_data_eq urljoin url last_year last_month w :
  get_data urljoin url last_year last_month w
  = match walk urljoin url last_year last_month w with
    | (inr links, w') => save links w'
    | (inl e, w') => (inl e, w')
    end.
Proof. reflexivity. Qed.

(** The save step raises either before it opens the file for writing, and
    then nothing changed, or inside the dump, which leaves the file cut
    short. *)
Lemma save_raises links w e w' :
  save links w = (inl e, w') ->
  w' = w
  \/ e = UnicodeEncodeError /\ w' = mkWorld (web w) (Some Unparsable) (logged w).
Proof.
  destruct w as [pages [[| data] |] lg]; cbn.
  - intros [= _ <-]. now left.
  - destruct data; cbn; try (intros [= _ <-]; now left); unfold json_dump;
      destruct (Python.encodable _); try discriminate; intros [= <- <-]; now right.
  - unfold json_dump. destruct (Python.encodable _); try discriminate.
    intros [= <- <-]. now right.
Qed.

(** A walk that raises ends the run with the record file as it was. *)
Lemma get_data_walk_raises urljoin url last_year last_month w e w' :
  walk urljoin url last_year last_month w = (inl e, w') ->
  get_data urljoin url last_year last_month w = (inl e, w')
  /\ files_data w' = files_data w.
Proof.
  intros Hwalk. rewrite get_data_eq, Hwalk. split; [reflexivity |].
  pose proof (walk_extends urljoin url last_year last_month w) as (_ & Hf & _).
  now rewrite Hwalk in Hf.
Qed.

Lemma at_checkpoint_falsy last_year last_month yv mv :
  Python.truthy last_year = false \/ Python.truthy last_month = false ->
  at_checkpoint last_year last_month yv mv = false.
Proof.
  unfold at_checkpoint. intros [-> | ->]; [reflexivity |].
  now rewrite andb_false_r.
Qed.

Lemma eqb_JStr s v : Python.eqb (JStr s) v = true -> v = JStr s.
Proof.
  destruct v; cbn; try discriminate. intros H. apply String.eqb_eq in H. now subst.
Qed.

Lemma find_all_is_Tag name cls recursive e x :
  In x (Soup.find_all name cls recursive e) -> Soup.is_Tag x = true.
Proof.
  intros H. apply in_find_all in H as [_ H]. destruct x; [discriminate | reflexivity].
Qed.

(** ** C1: the early-stop boundary *)

(** C1.  The page lists year 2025 first, with months 03 and 02 first, the
    link of month 03 resolves, and the checkpoint is ("2025", "02"): the
    walk of [get_data] returns exactly the record of 2025/03, and on a first
    run that is all [get_data] saves.  The months after 02 ([later]) and the
    years after 2025 ([older]) are arbitrary: nothing of them reaches the
    result or the log, which ends with the line of the early stop.  The
    document of the claim has [later] = month 01 and [older] = year 2024. *)
Theorem C1_early_stop_boundary
    (urljoin : string -> string -> Exception + string) (url h03 h02 full_url : string)
    (later older : list PageElement) (w : World) :
  web w url
  = Some (Html.page [Html.listing
            (Html.year_item "2025"
               (Html.month_item "03" h03 :: Html.month_item "02" h02 :: later)
             :: older)]) ->
  urljoin BASE_URL h03 = inr full_url ->
  let w' :=
    emit (emit (emit w INFO "Retrieving CSV file links...")
               INFO ("2025 03: " ++ full_url))
         INFO "The rest of the data has already been processed. Exiting." in
  walk urljoin url (JStr "2025") (JStr "02") w
  = (inr [record "2025" "03" full_url], w')
  /\ (files_data w = None -> Str.encodable full_url = true ->
      get_data urljoin url (JStr "2025") (JStr "02") w
      = (inr tt,
         mkWorld (web w) (Some (Parsed (JList [record "2025" "03" full_url])))
                 (logged w'))).
Proof.
  intros Hweb Hurl. cbv zeta.
  assert (Hwalk : walk urljoin url (JStr "2025") (JStr "02") w
                  = (inr [record "2025" "03" full_url],
                     emit (emit (emit w INFO "Retrieving CSV file links...")
                                INFO ("2025 03: " ++ full_url))
                          INFO "The rest of the data has already been processed. Exiting.")).
  { rewrite walk_eq, Hweb. unfold BASE_URL in Hurl. lazy. rewrite Hurl. reflexivity. }
  split; [exact Hwalk |].
  intros Hfile Henc. rewrite get_data_eq, Hwalk.
  rewrite save_missing by exact Hfile.
  rewrite json_dump_ok; [reflexivity |].
  change (Python.encodable (JList [record "2025" "03" full_url]))
    with (Python.encodable (record "2025" "03" full_url) && true).
  rewrite encodable_record, Henc. reflexivity.
Qed.

Lemma C1_early_stop_boundary_witness :
  let w := Examples.serving Examples.listing_2025_2024 None in
  web w MAIN_URL = Some Examples.listing_2025_2024
  /\ Examples.join_path BASE_URL "/csv/2025-03.zip"
     = inr "https://datos.madrid.es/csv/2025-03.zip"
  /\ walk Examples.join_path MAIN_URL (JStr "2025") (JStr "02") w
     = (inr [Spec.to_json Examples.rec_2025_03],
        mkWorld (web w) None
          [(INFO, "Retrieving CSV file links...");
           (INFO, "2025 03: https://datos.madrid.es/csv/2025-03.zip");
           (INFO, "The rest of the data has already been processed. Exiting.")]).
Proof.
  intros w. split; [reflexivity |]. split; [reflexivity |].
  exact (proj1 (C1_early_stop_boundary Examples.join_path MAIN_URL
                  "/csv/2025-03.zip" "/csv/2025-02.zip"
                  "https://datos.madrid.es/csv/2025-03.zip"
                  [Html.month_item "01" "/csv/2025-01.zip"]
                  [Html.year_item "2024" [Html.month_item "12" "/csv/2024-12.zip"]]
                  w eq_refl eq_refl)).
Defined.

(** ** C2: the merge *)

(** C2.  When the walk of [get_data] returned [links] and the record file
    stood for the sequence [existing] (empty when there was no file), the run
    saves [links] followed by the items of [existing], in their order, that
    are equal to no item of [links]; the one way for the dump not to save
    that list is a string in it that cannot be encoded.  On records this is
    the sequence the specification describes, and new records [A; B] over
    stored [B; C] give [A; B; C]. *)
Theorem C2_merge_new_first_dedup
    (urljoin : string -> string -> Exception + string) (url : string)
    (last_year last_month : json) (w w1 : World) (links existing : list json) :
  walk urljoin url last_year last_month w = (inr links, w1) ->
  stored w = Some existing ->
  let saved :=
    links ++ filter (fun item => negb (existsb (fun e => Python.eqb e item) links))
                    existing in
  (Python.encodable (JList saved) = true ->
   get_data urljoin url last_year last_month w
   = (inr tt, mkWorld (web w1) (Some (Parsed (JList saved))) (logged w1)))
  /\ (Python.encodable (JList saved) = false ->
      get_data urljoin url last_year last_month w
      = (inl UnicodeEncodeError, mkWorld (web w1) (Some Unparsable) (logged w1)))
  /\ (forall new old : list Spec.DiscoveryRecord,
         links = map Spec.to_json new -> existing = map Spec.to_json old ->
         saved = map Spec.to_json (Spec.merge new old))
  /\ (forall A B C : Spec.DiscoveryRecord,
         links = map Spec.to_json [A; B] -> existing = map Spec.to_json [B; C] ->
         C <> A -> C <> B ->
         saved = map Spec.to_json [A; B; C]).
Proof.
  intros Hwalk Hfile saved.
  assert (Hrefine : forall new old,
             links = map Spec.to_json new -> existing = map Spec.to_json old ->
             saved = map Spec.to_json (Spec.merge new old)).
  { intros new old -> ->. apply merge_to_json. }
  assert (Hsave : get_data urljoin url last_year last_month w
                  = json_dump (JList saved) w1).
  { rewrite get_data_eq, Hwalk.
    pose proof (walk_extends urljoin url last_year last_month w) as (_ & Hf & _).
    rewrite Hwalk in Hf. cbn [snd] in Hf.
    apply save_stored. unfold stored in *. now rewrite Hf. }
  split; [| split; [| split; [exact Hrefine |]]].
  - intros Henc. now rewrite Hsave, json_dump_ok.
  - intros Henc. now rewrite Hsave, json_dump_fails.
  - intros A B C HA HB HCA HCB. rewrite (Hrefine _ _ HA HB). f_equal.
    unfold Spec.merge. cbn. rewrite same_refl, orb_true_r. cbn.
    destruct (Spec.same C A) eqn:E1; [apply same_eq in E1; contradiction |].
    destruct (Spec.same C B) eqn:E2; [apply same_eq in E2; contradiction |].
    reflexivity.
Qed.

Lemma C2_merge_new_first_dedup_witness :
  let doc := Html.page [Html.listing [
               Html.year_item "2025" [Html.month_item "03" "/csv/2025-03.zip";
                                      Html.month_item "02" "/csv/2025-02.zip"]]] in
  let kept := map Spec.to_json [Examples.rec_2025_02; Examples.rec_2025_01] in
  let w := Examples.serving doc (Some (Parsed (JList kept))) in
  stored w = Some kept
  /\ fst (walk Examples.join_path MAIN_URL (JStr "") (JStr "") w)
     = inr (map Spec.to_json [Examples.rec_2025_03; Examples.rec_2025_02])
  /\ files_data (snd (get_data Examples.join_path MAIN_URL (JStr "") (JStr "") w))
     = Some (Parsed (JList (map Spec.to_json
               [Examples.rec_2025_03; Examples.rec_2025_02; Examples.rec_2025_01]))).
Proof.
  intros doc kept w. split; [reflexivity |]. split; [reflexivity |].
  destruct (C2_merge_new_first_dedup Examples.join_path MAIN_URL (JStr "") (JStr "")
              w (snd (walk Examples.join_path MAIN_URL (JStr "") (JStr "") w))
              (map Spec.to_json [Examples.rec_2025_03; Examples.rec_2025_02])
              kept eq_refl eq_refl) as (Hrun & _ & _ & _).
  rewrite (Hrun eq_refl). reflexivity.
Defined.

(** ** C3: the checkpoint *)

(** What [get_last_data] returns for the stores it handles: the year and
    month of the first stored record; ("", "") with an error line for a
    missing file and for an empty value. *)
Lemma get_last_data_handled
    (pages : string -> option PageElement) (lines : list (Level * string)) :
  (forall y m l rest,
      let w := mkWorld pages (Some (Parsed (JList (record y m l :: rest)))) lines in
      get_last_data w = (inr (JStr y, JStr m), w))
  /\ (let w := mkWorld pages None lines in
      get_last_data w
      = (inr (JStr "", JStr ""), emit w ERROR "The JSON file does not exist."))
  /\ (forall data, Python.truthy data = false ->
      let w := mkWorld pages (Some (Parsed data)) lines in
      get_last_data w
      = (inr (JStr "", JStr ""), emit w ERROR "No data found in the JSON file.")).
Proof.
  repeat split; try reflexivity.
  intros data Hdata w. unfold get_last_data. run. cbn. now rewrite Hdata.
Qed.

(** C3.  For a record file that does not parse, a file of length zero
    included, [get_last_data] does not return ("", "") as it does for a
    missing file and for an empty list: [json.load] raises, nothing catches
    the exception, and [main] ends with it before the page is requested. *)
Theorem C3_unparsable_store_raises
    (urljoin : string -> string -> Exception + string)
    (pages : string -> option PageElement) (lines : list (Level * string)) :
  let w := mkWorld pages (Some Unparsable) lines in
  get_last_data w = (inl JSONDecodeError, w)
  /\ fst (get_last_data w) <> inr (JStr "", JStr "")
  /\ main urljoin w = (inl JSONDecodeError, w)
  /\ fst (get_last_data (mkWorld pages None lines)) = inr (JStr "", JStr "")
  /\ fst (get_last_data (mkWorld pages (Some (Parsed (JList []))) lines))
     = inr (JStr "", JStr "").
Proof. cbn. repeat split. discriminate. Qed.

(** ** C4: when the early stop fires *)

(** C4.  The month loop sets the stop flag only if both checkpoint components
    are non-empty and equal the year label and the label of one of its
    titled candidates.  With an empty component the month loop therefore
    runs through every candidate of a year whose links resolve; the walk of
    [get_data], whenever it returns, returns the records of every month of
    every year entry, in document order; and it does return when every year
    entry is well formed and every link resolves. *)
Theorem C4_stop_needs_full_checkpoint
    (urljoin : string -> string -> Exception + string) (last_year last_month : json) :
  (forall yv months vars w vars' w',
      for_months urljoin last_year last_month yv months vars w = (inr vars', w') ->
      fst vars = false -> fst vars' = true ->
      Python.truthy last_year = true /\ Python.truthy last_month = true
      /\ exists m t, In m months /\ Soup.find "p" "info-title" m = Some t
                     /\ last_year = JStr yv /\ last_month = JStr (Soup.get_text t))
  /\ (Python.truthy last_year = false \/ Python.truthy last_month = false ->
      (forall yv months vars w,
          forallb (month_resolves urljoin) months = true ->
          exists w',
            for_months urljoin last_year last_month yv months vars w
            = (inr (fst vars, snd vars ++ flat_map (month_links urljoin yv) months), w')
            /\ extends w w')
      /\ (forall url w links w',
             walk urljoin url last_year last_month w = (inr links, w') ->
             exists soup main,
               web w url = Some soup
               /\ Soup.find "ul" "asociada-list trancateList docs" soup = Some main
               /\ links = flat_map (year_links urljoin)
                                   (Soup.find_all "li" "asociada-item" false main))
      /\ (forall url w soup main,
             web w url = Some soup ->
             Soup.find "ul" "asociada-list trancateList docs" soup = Some main ->
             let years := Soup.find_all "li" "asociada-item" false main in
             (0 < length years)%nat -> forallb year_ok years = true ->
             forallb (year_resolves urljoin) years = true ->
             exists w',
               walk urljoin url last_year last_month w
               = (inr (flat_map (year_links urljoin) years), w')
               /\ extends w w')).
Proof.
  split.
  - intros yv months vars w vars' w' Hrun Hdown Hup.
    destruct (for_months_inv urljoin last_year last_month yv months vars w vars' w' Hrun)
      as [Hflag _].
    destruct (Hflag Hdown Hup) as (m & t & Hin & Ht & Hcp).
    unfold at_checkpoint in Hcp.
    apply andb_true_iff in Hcp as [Hcp Hm]. apply andb_true_iff in Hcp as [Hcp Hy].
    apply andb_true_iff in Hcp as [Hly Hlm].
    repeat split; try assumption.
    exists m, t. repeat split; auto using eqb_JStr.
  - intros Hempty. split; [| split].
    + intros yv months vars w Hres. apply for_months_no_stop; [| exact Hres].
      intros. now apply at_checkpoint_falsy.
    + intros url w links w'. rewrite walk_eq.
      destruct (web w url) as [soup |]; [| discriminate]. cbv zeta.
      destruct (Soup.find "ul" "asociada-list trancateList docs" soup) as [main |] eqn:Hmain;
        [| discriminate].
      destruct (Soup.find_all "li" "asociada-item" false main) as [| y ys] eqn:Hyears;
        [discriminate |].
      destruct (for_years _ _ _ _ _ _) as [[e | v] w1] eqn:Hrun; [discriminate |].
      intros [= <- <-]. exists soup, main.
      split; [reflexivity |]. split; [exact Hmain |]. rewrite Hyears.
      apply for_years_returns_all in Hrun; [now subst v |].
      intros. now apply at_checkpoint_falsy.
    + intros url w soup main Hweb Hmain years Hlen Hok Hres.
      rewrite walk_eq, Hweb. cbv zeta. rewrite Hmain. fold years.
      destruct (for_years_no_stop urljoin last_year last_month years []
                  (emit w INFO "Retrieving CSV file links..."))
        as (w' & Hrun & Hext).
      { intros y Hy. rewrite forallb_forall in Hok. now apply Hok. }
      { intros. now apply at_checkpoint_falsy. }
      { exact Hres. }
      destruct years as [| y ys]; [cbn in Hlen; lia |].
      rewrite Hrun. exists w'. split; [reflexivity |].
      eapply extends_trans; [apply extends_emit, extends_refl | exact Hext].
Qed.

Lemma C4_stop_needs_full_checkpoint_witness :
  let w := Examples.serving Examples.listing_2025_2024 None in
  Python.truthy (JStr "") = false
  /\ exists w',
       walk Examples.join_path MAIN_URL (JStr "") (JStr "02") w
       = (inr (map Spec.to_json [Examples.rec_2025_03; Examples.rec_2025_02;
                                 Examples.rec_2025_01; Examples.rec_2024_12]), w')
       /\ extends w w'.
Proof.
  intros w. split; [reflexivity |].
  refine (proj2 (proj2 (proj2 (C4_stop_needs_full_checkpoint Examples.join_path
                                 (JStr "") (JStr "02"))
                          (or_introl eq_refl)))
            MAIN_URL w Examples.listing_2025_2024
            (Html.listing [
               Html.year_item "2025" [Html.month_item "03" "/csv/2025-03.zip";
                                      Html.month_item "02" "/csv/2025-02.zip";
                                      Html.month_item "01" "/csv/2025-01.zip"];
               Html.year_item "2024" [Html.month_item "12" "/csv/2024-12.zip"]])
            eq_refl eq_refl _ eq_refl eq_refl).
  cbn. lia.
Defined.

(** ** C5: structural defects *)

(** C5, as stated, fails, in two ways.  The second year entry of the first
    page has no title element, yet with the checkpoint at 2025/02 the walk
    stops in the first year, the run returns normally and writes the record
    file.  The year entry of the second page has no title element of its
    own, yet the search for the year title finds the title of its month: the
    run returns normally and writes a record whose year is that label. *)
Lemma C5_year_defects_not_raised :
  (let w := Examples.serving Examples.listing_with_untitled_year None in
   (exists main y2025,
       Soup.find "ul" "asociada-list trancateList docs" Examples.listing_with_untitled_year
       = Some main
       /\ Soup.find_all "li" "asociada-item" false main
          = [y2025; Examples.year_without_title])
   /\ Soup.find "p" "info-title" Examples.year_without_title = None
   /\ get_data Examples.join_path MAIN_URL (JStr "2025") (JStr "02") w
      = (inr tt,
         mkWorld (web w) (Some (Parsed (JList [Spec.to_json Examples.rec_2025_03])))
           [(INFO, "Retrieving CSV file links...");
            (INFO, "2025 03: https://datos.madrid.es/csv/2025-03.zip");
            (INFO, "The rest of the data has already been processed. Exiting.")])
   /\ files_data (snd (get_data Examples.join_path MAIN_URL (JStr "2025") (JStr "02") w))
      <> files_data w)
  /\ (let w := Examples.serving Examples.listing_with_year_titled_by_month None in
      (forall c, In c (Soup.contents Examples.year_titled_by_month) ->
                 Soup.search_tag "p" "info-title" c = false)
      /\ Soup.find "p" "info-title" Examples.year_titled_by_month = Some (Html.title "03")
      /\ get_data Examples.join_path MAIN_URL (JStr "") (JStr "") w
         = (inr tt,
            mkWorld (web w)
              (Some (Parsed (JList [record "03" "03"
                                           "https://datos.madrid.es/csv/2025-03.zip"])))
              [(INFO, "Retrieving CSV file links...");
               (INFO, "03 03: https://datos.madrid.es/csv/2025-03.zip")])).
Proof.
  cbn. split.
  - split; [do 2 eexists; split; reflexivity |].
    repeat split; discriminate.
  - split; [| split; reflexivity].
    intros c [<- | []]. reflexivity.
Qed.

(** C5, amended.  [get_data] raises [ValueError] and leaves the record file
    as it was when the page has no listing container, when the container has
    no year entry, and when the walk reaches, with no early stop in the years
    before it, a year entry below which the search finds, at any depth, no
    title element or no month candidate. *)
Theorem C5_structural_defect_raises
    (urljoin : string -> string -> Exception + string) (url : string)
    (last_year last_month : json) (w : World) (soup : PageElement) :
  web w url = Some soup ->
  let w0 := emit w INFO "Retrieving CSV file links..." in
  files_data w0 = files_data w
  /\ (Soup.find "ul" "asociada-list trancateList docs" soup = None ->
      get_data urljoin url last_year last_month w
      = (inl (ValueError "Main document list container not found."), w0))
  /\ (forall main,
         Soup.find "ul" "asociada-list trancateList docs" soup = Some main ->
         (Soup.find_all "li" "asociada-item" false main = [] ->
          get_data urljoin url last_year last_month w
          = (inl (ValueError "No year elements found."), w0))
         /\ (forall pre y post vars1 w1,
                Soup.find_all "li" "asociada-item" false main = pre ++ y :: post ->
                for_years urljoin last_year last_month pre (false, []) w0 = (inr vars1, w1) ->
                fst vars1 = false ->
                Soup.find "p" "info-title" y = None
                \/ Soup.find_all "li" "asociada-item" true y = [] ->
                exists msg,
                  get_data urljoin url last_year last_month w = (inl (ValueError msg), w1)
                  /\ files_data w1 = files_data w)).
Proof.
  intros Hweb w0. split; [reflexivity |]. split.
  - intros Hnone. now rewrite get_data_eq, walk_eq, Hweb, Hnone.
  - intros main Hmain. split.
    + intros Hnil. rewrite get_data_eq, walk_eq, Hweb. cbv zeta. now rewrite Hmain, Hnil.
    + intros pre y post vars1 w1 Hyears Hpre Hdown Hdefect.
      assert (Htag : Soup.is_Tag y = true).
      { apply (find_all_is_Tag "li" "asociada-item" false main).
        rewrite Hyears. apply in_or_app. right. now left. }
      assert (Hbad : year_ok y = false).
      { unfold year_ok, titled. destruct Hdefect as [-> | ->]; [reflexivity |].
        apply andb_false_r. }
      destruct (year_body_defect urljoin last_year last_month y vars1 w1 Htag Hbad)
        as (msg & Hy).
      assert (Hrun : for_years urljoin last_year last_month (pre ++ y :: post) (false, []) w0
                     = (inl (ValueError msg), w1)).
      { rewrite for_years_app by reflexivity. rewrite Hpre, Hdown.
        now rewrite for_years_cons, Hy. }
      assert (Hwalk : walk urljoin url last_year last_month w
                      = (inl (ValueError msg), w1)).
      { rewrite walk_eq, Hweb. cbv zeta. rewrite Hmain, Hyears.
        subst w0. revert Hrun.
        destruct (pre ++ y :: post) eqn:E; [now destruct pre |].
        now intros ->. }
      exists msg. now apply get_data_walk_raises.
Qed.

Lemma C5_structural_defect_raises_witness :
  let kept := Some (Parsed (JList [Spec.to_json Examples.rec_2025_01])) in
  let w := Examples.serving Examples.listing_with_untitled_year kept in
  web w MAIN_URL = Some Examples.listing_with_untitled_year
  /\ Soup.find "p" "info-title" Examples.year_without_title = None
  /\ exists msg w1,
       get_data Examples.join_path MAIN_URL (JStr "") (JStr "") w
       = (inl (ValueError msg), w1)
       /\ files_data w1 = kept.
Proof.
  intros kept w. split; [reflexivity |]. split; [reflexivity |].
  pose (w0 := emit w INFO "Retrieving CSV file links...").
  pose (y2025 := Html.year_item "2025" [Html.month_item "03" "/csv/2025-03.zip";
                                        Html.month_item "02" "/csv/2025-02.zip"]).
  pose (run := for_years Examples.join_path (JStr "") (JStr "") [y2025] (false, []) w0).
  destruct (proj2 (proj2 (proj2 (C5_structural_defect_raises Examples.join_path MAIN_URL
                                   (JStr "") (JStr "") w
                                   Examples.listing_with_untitled_year eq_refl))
                     (Html.listing [y2025; Examples.year_without_title]) eq_refl)
              [y2025] Examples.year_without_title []
              (false, map Spec.to_json [Examples.rec_2025_03; Examples.rec_2025_02])
              (snd run) eq_refl eq_refl eq_refl (or_introl eq_refl))
    as (msg & Hget & Hfile).
  exists msg, (snd run). split; [exact Hget | exact Hfile].
Defined.

(** ** C6: soft skips *)

(** C6, as stated, fails: month 02 has a title and no link container, and it
    is the checkpoint.  The walk stops at it, so month 01 behind it is not
    processed; without a checkpoint the same entry is skipped with a warning
    and month 01 is recorded. *)
Lemma C6_unlinked_entry_at_checkpoint_stops :
  let w := Examples.serving Examples.listing_with_unlinked_month None in
  let m02 := Examples.month_without_link "02" in
  let m01 := Html.month_item "01" "/csv/2025-01.zip" in
  Soup.find_all "li" "asociada-item" true (Html.year_item "2025" [m02; m01])
  = [m02; m01; Html.link_item "/csv/2025-01.zip"]
  /\ Soup.find "p" "info-title" m02 = Some (Html.title "02")
  /\ Soup.find "li" "asociada-item" m02 = None
  /\ walk Examples.join_path MAIN_URL (JStr "2025") (JStr "02") w
     = (inr [],
        mkWorld (web w) None
          [(INFO, "Retrieving CSV file links...");
           (INFO, "The rest of the data has already been processed. Exiting.")])
  /\ walk Examples.join_path MAIN_URL (JStr "") (JStr "") w
     = (inr [Spec.to_json Examples.rec_2025_01],
        mkWorld (web w) None
          [(INFO, "Retrieving CSV file links...");
           (WARNING, "Links container not found in 2025 02. Skipping.");
           (INFO, "2025 01: https://datos.madrid.es/csv/2025-01.zip")]).
Proof. cbn. repeat split. Qed.

(** C6, amended.  A month entry with a title but without a link container,
    without a ZIP anchor in it, or with an anchor whose [href] is no string,
    never makes the loop body raise and never appends a record; unless the
    early stop fires at that entry, the body logs one warning and the loop
    goes on with the entries after it exactly as if the entry were not
    there. *)
Theorem C6_soft_skip_continues
    (urljoin : string -> string -> Exception + string) (last_year last_month : json)
    (yv : string) (m t : PageElement) :
  Soup.find "p" "info-title" m = Some t ->
  (Soup.find "li" "asociada-item" m = None
   \/ (exists lc, Soup.find "li" "asociada-item" m = Some lc
                  /\ Soup.find "a" "asociada-link ico-zip" lc = None)
   \/ (exists lc a, Soup.find "li" "asociada-item" m = Some lc
                    /\ Soup.find "a" "asociada-link ico-zip" lc = Some a
                    /\ forall href, Soup.get a "href" <> Some (AttrStr href))) ->
  (forall vars w,
      exists flow flag w',
        month_body urljoin last_year last_month yv m vars w
        = (inr (flow, (flag, snd vars)), w')
        /\ extends w w')
  /\ (at_checkpoint last_year last_month yv (Soup.get_text t) = false ->
      forall rest vars w,
        for_months urljoin last_year last_month yv (m :: rest) vars w
        = for_months urljoin last_year last_month yv rest vars
            (emit w WARNING (skip_warning yv (Soup.get_text t) m))).
Proof.
  intros Ht Hdefect.
  assert (Hz : zip_href m = None).
  { unfold zip_href.
    destruct Hdefect as [-> | [(lc & -> & ->) | (lc & a & -> & -> & Hhref)]];
      try reflexivity.
    destruct (Soup.get a "href") as [[h | l] |]; try reflexivity.
    now destruct (Hhref h). }
  split.
  - intros vars w. rewrite month_body_eq, Ht, Hz.
    destruct (at_checkpoint _ _ _ _).
    + exists Break, true. eexists. split; [reflexivity | apply extends_emit, extends_refl].
    + exists Continue, (fst vars). eexists. split.
      * now destruct vars.
      * apply extends_emit, extends_refl.
  - intros Hcp rest vars w. rewrite for_months_cons, month_body_eq, Ht, Hcp, Hz.
    reflexivity.
Qed.

Lemma C6_soft_skip_continues_witness :
  let m := Examples.month_without_link "02" in
  let rest := [Html.month_item "01" "/csv/2025-01.zip"] in
  let w := Examples.serving Examples.listing_with_unlinked_month None in
  Soup.find "p" "info-title" m = Some (Html.title "02")
  /\ Soup.find "li" "asociada-item" m = None
  /\ at_checkpoint (JStr "") (JStr "") "2025" "02" = false
  /\ for_months Examples.join_path (JStr "") (JStr "") "2025" (m :: rest) (false, []) w
     = for_months Examples.join_path (JStr "") (JStr "") "2025" rest (false, [])
         (emit w WARNING "Links container not found in 2025 02. Skipping.").
Proof.
  intros m rest w. repeat (split; [reflexivity |]).
  exact (proj2 (C6_soft_skip_continues Examples.join_path (JStr "") (JStr "") "2025"
                  m (Html.title "02") eq_refl (or_introl eq_refl))
           eq_refl rest (false, []) w).
Defined.

(** ** C7: nothing new, nothing changed *)

(** C7.  When the walk of [get_data] returns no record, the run saves the
    sequence the record file stood for, unchanged in content and order,
    provided the stored strings can be encoded; when the file existed, the
    world after the run is the world after the walk, which differs from the
    initial one by log lines only. *)
Theorem C7_empty_walk_keeps_store
    (urljoin : string -> string -> Exception + string) (url : string)
    (last_year last_month : json) (w w1 : World) (existing : list json) :
  walk urljoin url last_year last_month w = (inr [], w1) ->
  stored w = Some existing ->
  merge [] existing = existing
  /\ (Python.encodable (JList existing) = true ->
      (exists w2, get_data urljoin url last_year last_month w = (inr tt, w2)
                  /\ files_data w2 = Some (Parsed (JList existing))
                  /\ stored w2 = stored w)
      /\ (files_data w <> None ->
          get_data urljoin url last_year last_month w = (inr tt, w1)
          /\ files_data w1 = files_data w)).
Proof.
  intros Hwalk Hstored.
  pose proof (walk_extends urljoin url last_year last_month w) as (_ & Hf & _).
  rewrite Hwalk in Hf. cbn [snd] in Hf.
  assert (Hstored1 : stored w1 = Some existing) by (unfold stored in *; now rewrite Hf).
  split; [apply merge_nil |]. intros Henc.
  assert (Hrun : get_data urljoin url last_year last_month w
                 = (inr tt, mkWorld (web w1) (Some (Parsed (JList existing))) (logged w1))).
  { rewrite get_data_eq, Hwalk, (save_stored _ existing _ Hstored1), merge_nil.
    now apply json_dump_ok. }
  split.
  - eexists. split; [exact Hrun |]. split; [reflexivity |]. now rewrite Hstored.
  - intros Hfile. split; [| exact Hf].
    rewrite Hrun. unfold stored in Hstored1. rewrite <- Hf in Hfile.
    destruct (files_data w1) as [[| data] |] eqn:E; try discriminate; try contradiction.
    destruct data; try discriminate. injection Hstored1 as <-.
    rewrite <- E. now rewrite world_eta.
Qed.

Lemma C7_empty_walk_keeps_store_witness :
  let kept := map Spec.to_json [Examples.rec_2025_03; Examples.rec_2025_02] in
  let w := Examples.serving Examples.listing_2025_2024 (Some (Parsed (JList kept))) in
  fst (get_last_data w) = inr (JStr "2025", JStr "03")
  /\ fst (walk Examples.join_path MAIN_URL (JStr "2025") (JStr "03") w) = inr []
  /\ stored w = Some kept
  /\ Python.encodable (JList kept) = true
  /\ files_data (snd (get_data Examples.join_path MAIN_URL (JStr "2025") (JStr "03") w))
     = Some (Parsed (JList kept))
  /\ files_data (snd (main Examples.join_path w)) = Some (Parsed (JList kept)).
Proof.
  intros kept w.
  split; [reflexivity |]. split; [reflexivity |]. split; [reflexivity |].
  split; [reflexivity |].
  destruct (C7_empty_walk_keeps_store Examples.join_path MAIN_URL (JStr "2025") (JStr "03")
              w (snd (walk Examples.join_path MAIN_URL (JStr "2025") (JStr "03") w))
              kept eq_refl eq_refl) as (_ & Hrun).
  destruct (Hrun eq_refl) as ((w2 & Hget & Hfile & _) & _).
  split; [rewrite Hget; exact Hfile | reflexivity].
Defined.

(** ** C8: direct children and descendants *)

(** C8.  The walk runs the year loop over the matching elements among the
    children of the listing container, and the body of the year loop runs
    the month loop over the matching elements among all the descendants of
    the year entry.  So a container none of whose children matches has no
    year for the walk, whatever lies deeper; and a month candidate at any
    depth below a year entry has its records in what a walk without
    checkpoint returns. *)
Theorem C8_years_direct_months_recursive :
  (forall urljoin url last_year last_month w soup main,
      web w url = Some soup ->
      Soup.find "ul" "asociada-list trancateList docs" soup = Some main ->
      walk urljoin url last_year last_month w
      = match filter (Soup.search_tag "li" "asociada-item") (Soup.contents main) with
        | [] => (inl (ValueError "No year elements found."),
                 emit w INFO "Retrieving CSV file links...")
        | (_ :: _) as years =>
          match for_years urljoin last_year last_month years (false, [])
                          (emit w INFO "Retrieving CSV file links...") with
          | (inr vars, w') => (inr (snd vars), w')
          | (inl e, w') => (inl e, w')
          end
        end)
  /\ (forall urljoin last_year last_month y t vars w,
         Soup.find "p" "info-title" y = Some t ->
         year_body urljoin last_year last_month y vars w
         = match filter (Soup.search_tag "li" "asociada-item") (Soup.descendants y) with
           | [] =>
             (inl (ValueError ("No months found for year " ++ Soup.get_text t ++ ".")), w)
           | (_ :: _) as months =>
             match for_months urljoin last_year last_month (Soup.get_text t) months vars w
             with
             | (inr vars', w') => (inr (if fst vars' then Break else Continue, vars'), w')
             | (inl e, w') => (inl e, w')
             end
           end)
  /\ (forall urljoin url last_year last_month w soup main,
         web w url = Some soup ->
         Soup.find "ul" "asociada-list trancateList docs" soup = Some main ->
         (forall c, In c (Soup.contents main) ->
                    Soup.search_tag "li" "asociada-item" c = false) ->
         walk urljoin url last_year last_month w
         = (inl (ValueError "No year elements found."),
            emit w INFO "Retrieving CSV file links..."))
  /\ (forall urljoin url last_year last_month w soup main links w',
         Python.truthy last_year = false \/ Python.truthy last_month = false ->
         web w url = Some soup ->
         Soup.find "ul" "asociada-list trancateList docs" soup = Some main ->
         walk urljoin url last_year last_month w = (inr links, w') ->
         forall y t x,
           In y (Soup.contents main) -> Soup.search_tag "li" "asociada-item" y = true ->
           Soup.find "p" "info-title" y = Some t ->
           In x (Soup.descendants y) -> Soup.search_tag "li" "asociada-item" x = true ->
           incl (month_links urljoin (Soup.get_text t) x) links)
  /\ (forall name attrs wrapper x,
         Soup.search_tag "li" "asociada-item" wrapper = false ->
         In x (Soup.contents wrapper) ->
         Soup.search_tag "li" "asociada-item" x = true ->
         In x (Soup.find_all "li" "asociada-item" true (Tag name attrs [wrapper]))
         /\ Soup.find_all "li" "asociada-item" false (Tag name attrs [wrapper]) = [])
  /\ (forall urljoin url last_year last_month store lines years,
         let w := mkWorld (fun _ => Some (Html.page [Html.listing [Html.el "div" [] years]]))
                          store lines in
         walk urljoin url last_year last_month w
         = (inl (ValueError "No year elements found."),
            emit w INFO "Retrieving CSV file links..."))
  /\ (forall urljoin url store lines href full_url,
         urljoin BASE_URL href = inr full_url ->
         let w := mkWorld (fun _ => Some (Html.page [Html.listing [
                     Html.year_item "2025" [Html.el "div" [] [Html.month_item "03" href]]]]))
                          store lines in
         fst (walk urljoin url (JStr "") (JStr "") w)
         = inr [record "2025" "03" full_url]).
Proof.
  split; [| split; [| split; [| split; [| split; [| split]]]]].
  - intros urljoin url ly lm w soup main Hweb Hmain.
    now rewrite walk_eq, Hweb, Hmain.
  - intros urljoin ly lm y t vars w Ht. now rewrite year_body_eq, Ht.
  - intros urljoin url ly lm w soup main Hweb Hmain Hnone.
    rewrite walk_eq, Hweb. cbv zeta. rewrite Hmain.
    unfold Soup.find_all. apply filter_nil_iff in Hnone. now rewrite Hnone.
  - intros urljoin url ly lm w soup main links w' Hempty Hweb Hmain.
    rewrite walk_eq, Hweb. cbv zeta. rewrite Hmain.
    destruct (Soup.find_all "li" "asociada-item" false main) as [| y0 ys] eqn:Hyears;
      [discriminate |].
    destruct (for_years _ _ _ _ _ _) as [[e | v] w1] eqn:Hrun; [discriminate |].
    intros [= <- <-] y t x Hy Hitem Ht Hx Hxitem r Hr.
    apply for_years_returns_all in Hrun; [| intros; now apply at_checkpoint_falsy].
    subst v. cbn [snd app]. rewrite <- Hyears.
    apply in_flat_map. exists y. split.
    + apply in_find_all. now split.
    + unfold year_links. rewrite Ht. apply in_flat_map. exists x. split; [| exact Hr].
      apply in_find_all. now split.
  - intros name attrs wrapper x Hw Hx Hitem. split.
    + apply in_find_all. split; [| exact Hitem].
      apply in_descendants_Tag. exists wrapper. split; [now left | right].
      destruct wrapper as [s | n a cs]; [contradiction |].
      apply in_descendants_Tag. exists x. split; [exact Hx | now left].
    + unfold Soup.find_all. cbn [Soup.contents filter]. now rewrite Hw.
  - reflexivity.
  - intros urljoin url store lines href full_url Hurl w.
    rewrite walk_eq. unfold BASE_URL in Hurl. subst w. lazy. rewrite Hurl. reflexivity.
Qed.

Lemma C8_years_direct_months_recursive_witness :
  let m03 := Html.month_item "03" "/csv/2025-03.zip" in
  let year := Html.year_item "2025" [Html.el "div" [] [m03]] in
  let w := Examples.serving (Html.page [Html.listing [year]]) None in
  let wrapper := Html.el "div" [] [year] in
  (~ In m03 (Soup.contents year)
   /\ In m03 (Soup.descendants year)
   /\ fst (walk Examples.join_path MAIN_URL (JStr "") (JStr "") w)
      = inr [Spec.to_json Examples.rec_2025_03]
   /\ incl (month_links Examples.join_path "2025" m03) [Spec.to_json Examples.rec_2025_03])
  /\ Soup.search_tag "li" "asociada-item" wrapper = false
  /\ Soup.search_tag "li" "asociada-item" year = true
  /\ In year (Soup.find_all "li" "asociada-item" true (Html.listing [wrapper]))
  /\ Soup.find_all "li" "asociada-item" false (Html.listing [wrapper]) = [].
Proof.
  intros m03 year w wrapper.
  assert (Hin : In m03 (Soup.descendants year)).
  { right. right. right. right. left. reflexivity. }
  split; [| split; [reflexivity | split; [reflexivity |]]].
  - split; [intros [H | [H | []]]; discriminate |].
    split; [exact Hin |]. split; [reflexivity |].
    exact (proj1 (proj2 (proj2 (proj2 C8_years_direct_months_recursive)))
             Examples.join_path MAIN_URL (JStr "") (JStr "") w
             (Html.page [Html.listing [year]]) (Html.listing [year])
             [Spec.to_json Examples.rec_2025_03]
             (snd (walk Examples.join_path MAIN_URL (JStr "") (JStr "") w))
             (or_introl eq_refl) eq_refl eq_refl eq_refl
             year (Html.title "2025") m03
             (or_introl eq_refl) eq_refl eq_refl Hin eq_refl).
  - exact (proj1 (proj2 (proj2 (proj2 (proj2 C8_years_direct_months_recursive))))
             "ul" [("class", AttrList ["asociada-list"; "trancateList"; "docs"])]
             wrapper year eq_refl (or_introl eq_refl) eq_refl).
Defined.

(** ** C9: a first record with missing keys *)

(** C9, as stated, fails: the first stored record has the key "year" alone,
    with an empty value, and the checkpoint has no non-empty component. *)
Lemma C9_lone_key_with_empty_value :
  let d := [("year", JStr "")] in
  let w := mkWorld (fun _ => None) (Some (Parsed (JList [JDict d]))) [] in
  Dict.lookup "year" d = Some (JStr "") /\ Dict.lookup "month" d = None
  /\ get_last_data w = (inr (JStr "", JStr ""), w)
  /\ Python.truthy (JStr "") = false.
Proof. repeat split. Qed.

(** C9, amended.  When the first stored item is a dict, [get_last_data]
    returns, for each of "year" and "month", the stored value or "" when the
    key is missing, and raises nothing.  With "year" alone the checkpoint is
    (value, ""), with "month" alone ("", value): exactly that component is
    non-empty when the stored value is non-empty, and none is when the
    stored value is empty. *)
Theorem C9_missing_key_falls_back
    (pages : string -> option PageElement) (lines : list (Level * string))
    (d : list (string * json)) (rest : list json) :
  let w := mkWorld pages (Some (Parsed (JList (JDict d :: rest)))) lines in
  get_last_data w
  = (inr (match Dict.lookup "year" d with Some v => v | None => JStr "" end,
          match Dict.lookup "month" d with Some v => v | None => JStr "" end), w)
  /\ (forall v, Dict.lookup "year" d = Some v -> Dict.lookup "month" d = None ->
        get_last_data w = (inr (v, JStr ""), w)
        /\ (Python.truthy v = true ->
            exists ly lm, get_last_data w = (inr (ly, lm), w)
                          /\ Python.truthy ly = true /\ Python.truthy lm = false)
        /\ (Python.truthy v = false ->
            exists ly lm, get_last_data w = (inr (ly, lm), w)
                          /\ Python.truthy ly = false /\ Python.truthy lm = false))
  /\ (forall v, Dict.lookup "year" d = None -> Dict.lookup "month" d = Some v ->
        get_last_data w = (inr (JStr "", v), w)
        /\ (Python.truthy v = true ->
            exists ly lm, get_last_data w = (inr (ly, lm), w)
                          /\ Python.truthy ly = false /\ Python.truthy lm = true)
        /\ (Python.truthy v = false ->
            exists ly lm, get_last_data w = (inr (ly, lm), w)
                          /\ Python.truthy ly = false /\ Python.truthy lm = false))
  /\ (Dict.lookup "year" d = None -> Dict.lookup "month" d = None ->
        get_last_data w = (inr (JStr "", JStr ""), w)).
Proof.
  intros w.
  assert (Hrun : get_last_data w
                 = (inr (match Dict.lookup "year" d with Some v => v | None => JStr "" end,
                         match Dict.lookup "month" d with Some v => v | None => JStr "" end),
                    w)) by reflexivity.
  split; [exact Hrun |]. rewrite Hrun. split; [| split].
  - intros v Hy Hm. rewrite Hy, Hm. split; [reflexivity |].
    split; intros Hv; exists v, (JStr ""); auto.
  - intros v Hy Hm. rewrite Hy, Hm. split; [reflexivity |].
    split; intros Hv; exists (JStr ""), v; auto.
  - intros Hy Hm. now rewrite Hy, Hm.
Qed.

Lemma C9_missing_key_falls_back_witness :
  let d := [("year", JStr "2025"); ("link", JStr "https://datos.madrid.es/csv/x.zip")] in
  let w := mkWorld (fun _ => None) (Some (Parsed (JList [JDict d]))) [] in
  Dict.lookup "year" d = Some (JStr "2025") /\ Dict.lookup "month" d = None
  /\ get_last_data w = (inr (JStr "2025", JStr ""), w).
Proof.
  intros d w. split; [reflexivity |]. split; [reflexivity |].
  exact (proj1 (proj1 (proj2 (C9_missing_key_falls_back (fun _ => None) [] d []))
                  (JStr "2025") eq_refl eq_refl)).
Defined.

(** ** C10: link containers among the candidates *)



(** * Further properties of the script *)

(** ** The early-stop test *)

Lemma at_checkpoint_true_iff last_year last_month yv mv :
  at_checkpoint last_year last_month yv mv = true
  <-> last_year = JStr yv /\ last_month = JStr mv /\ yv <> "" /\ mv <> "".
Proof.
  unfold at_checkpoint. split.
  - intros H. apply andb_true_iff in H as [H Hm]. apply andb_true_iff in H as [H Hy].
    apply andb_true_iff in H as [Hly Hlm].
    apply eqb_JStr in Hy, Hm. subst. cbn in Hly, Hlm.
    repeat split; intros ->; discriminate.
  - intros (-> & -> & Hy & Hm). cbn. rewrite !String.eqb_refl.
    apply String.eqb_neq in Hy, Hm. now rewrite Hy, Hm.
Qed.

(** ** What a loop returns does not depend on the file or on the log *)

Section Worlds.

Variable urljoin : string -> string -> Exception + string.
Variables last_year last_month : json.

Lemma month_body_fst yv m vars w w' :
  fst (month_body urljoin last_year last_month yv m vars w)
  = fst (month_body urljoin last_year last_month yv m vars w').
Proof.
  rewrite !month_body_eq.
  destruct (Soup.find "p" "info-title" m) as [t |]; [| reflexivity].
  destruct (at_checkpoint _ _ _ _); [reflexivity |].
  destruct (zip_href m) as [h |]; [| reflexivity].
  now destruct (urljoin BASE_URL h).
Qed.

Lemma for_months_fst yv months : forall vars w w',
  fst (for_months urljoin last_year last_month yv months vars w)
  = fst (for_months urljoin last_year last_month yv months vars w').
Proof.
  induction months as [| m rest IH]; intros vars w w'; [reflexivity |].
  rewrite !for_months_cons.
  pose proof (month_body_fst yv m vars w w') as H.
  destruct (month_body urljoin last_year last_month yv m vars w) as [r w1].
  destruct (month_body urljoin last_year last_month yv m vars w') as [r' w1'].
  cbn in H. subst r'. destruct r as [e | [[|] v]]; try reflexivity. apply IH.
Qed.

Lemma year_body_fst y vars w w' :
  fst (year_body urljoin last_year last_month y vars w)
  = fst (year_body urljoin last_year last_month y vars w').
Proof.
  rewrite !year_body_eq.
  destruct (Soup.find "p" "info-title" y) as [t |]; [| reflexivity].
  destruct (Soup.find_all "li" "asociada-item" true y) as [| m ms]; [reflexivity |].
  pose proof (for_months_fst (Soup.get_text t) (m :: ms) vars w w') as H.
  destruct (for_months _ _ _ _ _ _ w) as [r w1].
  destruct (for_months _ _ _ _ _ _ w') as [r' w1'].
  cbn in H. subst r'. now destruct r.
Qed.

Lemma for_years_fst years : forall vars w w',
  fst (for_years urljoin last_year last_month years vars w)
  = fst (for_years urljoin last_year last_month years vars w').
Proof.
  induction years as [| y rest IH]; intros vars w w'; [reflexivity |].
  rewrite !for_years_cons.
  pose proof (year_body_fst y vars w w') as H.
  destruct (year_body urljoin last_year last_month y vars w) as [r w1].
  destruct (year_body urljoin last_year last_month y vars w') as [r' w1'].
  cbn in H. subst r'. destruct r as [e | [[|] v]]; try reflexivity. apply IH.
Qed.

Lemma walk_fst url w w' :
  web w url = web w' url ->
  fst (walk urljoin url last_year last_month w)
  = fst (walk urljoin url last_year last_month w').
Proof.
  intros Hweb. rewrite !walk_eq, <- Hweb.
  destruct (web w url) as [soup |]; [| reflexivity]. cbv zeta.
  destruct (Soup.find "ul" "asociada-list trancateList docs" soup) as [main |];
    [| reflexivity].
  destruct (Soup.find_all "li" "asociada-item" false main) as [| y ys]; [reflexivity |].
  pose proof (for_years_fst (y :: ys) (false, [])
                (emit w INFO "Retrieving CSV file links...")
                (emit w' INFO "Retrieving CSV file links...")) as H.
  destruct (for_years _ _ _ _ _ (emit w _ _)) as [r w1].
  destruct (for_years _ _ _ _ _ (emit w' _ _)) as [r' w1'].
  cbn in H. subst r'. now destruct r.
Qed.

End Worlds.

(** X1.  Whatever the checkpoint, the records the walk of [get_data] returns
    are an initial segment of the records of the whole listing in document
    order: the early stop cuts the sequence, it never reorders or alters
    it. *)
Theorem walk_returns_prefix_of_listing
    (urljoin : string -> string -> Exception + string) (url : string) (last_year last_month : json)
    (w w' : World) (links : list json) :
  walk urljoin url last_year last_month w = (inr links, w') ->
  exists soup main rest,
    web w url = Some soup
    /\ Soup.find "ul" "asociada-list trancateList docs" soup = Some main
    /\ flat_map (year_links urljoin) (Soup.find_all "li" "asociada-item" false main)
       = links ++ rest.
Proof.
  rewrite walk_eq. destruct (web w url) as [soup |]; [| discriminate]. cbv zeta.
  destruct (Soup.find "ul" "asociada-list trancateList docs" soup) as [main |] eqn:Hmain;
    [| discriminate].
  destruct (Soup.find_all "li" "asociada-item" false main) as [| y ys] eqn:Hyears;
    [discriminate |].
  destruct (for_years _ _ _ _ _ _) as [[e | v] w1] eqn:Hrun; [discriminate |].
  intros [= <- <-].
  apply for_years_shape in Hrun as (new & rest & Hv & Hall & _).
  exists soup, main, rest. cbn in Hv. subst new.
  split; [reflexivity |]. split; [exact Hmain |]. now rewrite Hyears.
Qed.

Lemma walk_returns_prefix_of_listing_witness :
  let w := Examples.serving Examples.listing_2025_2024 None in
  exists w',
    walk Examples.join_path MAIN_URL (JStr "2025") (JStr "01") w
    = (inr (map Spec.to_json [Examples.rec_2025_03; Examples.rec_2025_02]), w')
    /\ exists soup main rest,
         web w MAIN_URL = Some soup
         /\ Soup.find "ul" "asociada-list trancateList docs" soup = Some main
         /\ flat_map (year_links Examples.join_path)
                     (Soup.find_all "li" "asociada-item" false main)
            = map Spec.to_json [Examples.rec_2025_03; Examples.rec_2025_02] ++ rest.
Proof.
  intros w.
  exists (snd (walk Examples.join_path MAIN_URL (JStr "2025") (JStr "01") w)).
  split; [reflexivity |].
  exact (walk_returns_prefix_of_listing Examples.join_path MAIN_URL
           (JStr "2025") (JStr "01") w
           (snd (walk Examples.join_path MAIN_URL (JStr "2025") (JStr "01") w))
           (map Spec.to_json [Examples.rec_2025_03; Examples.rec_2025_02]) eq_refl).
Defined.

(** Every returned item was built at line 142. *)
Lemma walk_emitted
    (urljoin : string -> string -> Exception + string) (url : string)
    (last_year last_month : json) (w w' : World) (links : list json) :
  walk urljoin url last_year last_month w = (inr links, w') ->
  Forall (fun r => exists yv mv h full_url,
              urljoin BASE_URL h = inr full_url
              /\ r = record yv mv full_url
              /\ at_checkpoint last_year last_month yv mv = false) links.
Proof.
  rewrite walk_eq.
  destruct (web w url) as [soup |]; [| discriminate]. cbv zeta.
  destruct (Soup.find "ul" "asociada-list trancateList docs" soup) as [main |];
    [| discriminate].
  destruct (Soup.find_all "li" "asociada-item" false main) as [| y ys];
    [discriminate |].
  destruct (for_years _ _ _ _ _ _) as [[e | v] w1] eqn:Hrun; [discriminate |].
  intros [= <- <-].
  apply for_years_shape in Hrun as (new & rest & Hv & _ & Hnew).
  cbn in Hv. now subst new.
Qed.

(** X2.  Every item the walk of [get_data] returns is a record with the keys
    "year", "month" and "link", whose link is what [urljoin] resolved an
    [href] to and whose labels did not trigger the early stop: under a
    checkpoint with two non-empty components no returned record carries the
    year and month of the checkpoint. *)
Theorem walk_never_returns_checkpoint
    (urljoin : string -> string -> Exception + string) (url : string)
    (last_year last_month : json) (w w' : World) (links : list json) :
  walk urljoin url last_year last_month w = (inr links, w') ->
  Forall (fun r => exists yv mv h full_url,
              urljoin BASE_URL h = inr full_url
              /\ r = record yv mv full_url
              /\ at_checkpoint last_year last_month yv mv = false) links
  /\ (forall y m l,
         last_year = JStr y -> last_month = JStr m -> y <> "" -> m <> "" ->
         ~ In (record y m l) links).
Proof.
  intros Hwalk. pose proof (walk_emitted _ _ _ _ _ _ _ Hwalk) as Hall.
  split; [exact Hall |].
  intros y m l -> -> Hy Hm Hin.
  rewrite Forall_forall in Hall.
  destruct (Hall _ Hin) as (yv & mv & h & full_url & _ & Hr & Hcp).
  injection Hr as <- <- _.
  assert (Hcp' : at_checkpoint (JStr y) (JStr m) y m = true)
    by (apply at_checkpoint_true_iff; auto).
  congruence.
Qed.

Lemma walk_never_returns_checkpoint_witness :
  let w := Examples.serving Examples.listing_2025_2024 None in
  fst (walk Examples.join_path MAIN_URL (JStr "2025") (JStr "01") w)
  = inr (map Spec.to_json [Examples.rec_2025_03; Examples.rec_2025_02])
  /\ forall l,
       ~ In (record "2025" "01" l)
            (map Spec.to_json [Examples.rec_2025_03; Examples.rec_2025_02]).
Proof.
  intros w. split; [reflexivity |]. intros l.
  refine (proj2 (walk_never_returns_checkpoint Examples.join_path MAIN_URL
                   (JStr "2025") (JStr "01") w
                   (snd (walk Examples.join_path MAIN_URL (JStr "2025") (JStr "01") w))
                   (map Spec.to_json [Examples.rec_2025_03; Examples.rec_2025_02])
                   eq_refl)
            "2025" "01" l eq_refl eq_refl _ _); discriminate.
Defined.

(** ** The exact result of a walk that stops *)

Section Stop.

Variable urljoin : string -> string -> Exception + string.
Variables last_year last_month : json.

Lemma for_months_stop_at yv pre m post : forall vars w,
  forallb (month_clear last_year last_month yv) pre = true ->
  forallb (month_resolves urljoin) pre = true ->
  month_clear last_year last_month yv m = false ->
  exists w',
    for_months urljoin last_year last_month yv (pre ++ m :: post) vars w
    = (inr (true, snd vars ++ flat_map (month_links urljoin yv) pre), w').
Proof.
  induction pre as [| p pre IH]; intros vars w Hpre Hres Hm.
  - cbn [app]. rewrite for_months_cons, month_body_eq.
    unfold month_clear in Hm.
    destruct (Soup.find "p" "info-title" m) as [t |]; [| discriminate].
    apply negb_false_iff in Hm. rewrite Hm. eexists. cbn. now rewrite app_nil_r.
  - cbn [app forallb flat_map] in *.
    apply andb_true_iff in Hpre as [Hp Hpre]. apply andb_true_iff in Hres as [Hr Hres].
    rewrite for_months_cons, month_body_eq. unfold month_links at 1.
    pose proof (month_clear_spec last_year last_month yv p Hp) as Hcp.
    unfold month_resolves in Hr.
    destruct (Soup.find "p" "info-title" p) as [t |].
    + rewrite (Hcp t eq_refl).
      destruct (zip_href p) as [h |].
      * destruct (urljoin BASE_URL h) as [e | full_url]; [discriminate |].
        destruct (IH (fst vars, snd vars ++ [record yv (Soup.get_text t) full_url])
                     (emit w INFO (yv ++ " " ++ Soup.get_text t ++ ": " ++ full_url))
                     Hpre Hres Hm) as (w' & ->).
        exists w'. cbn [fst snd]. now rewrite <- app_assoc.
      * now apply IH.
    + now apply IH.
Qed.

Lemma for_years_clear ys : forall links w,
  forallb year_ok ys = true ->
  forallb (year_clear last_year last_month) ys = true ->
  forallb (year_resolves urljoin) ys = true ->
  exists w',
    for_years urljoin last_year last_month ys (false, links) w
    = (inr (false, links ++ flat_map (year_links urljoin) ys), w').
Proof.
  induction ys as [| y ys IH]; intros links w Hok Hclear Hres.
  - exists w. cbn. now rewrite app_nil_r.
  - cbn [forallb] in Hok, Hclear, Hres.
    apply andb_true_iff in Hok as [Hy Hok]. apply andb_true_iff in Hclear as [Hc Hclear].
    apply andb_true_iff in Hres as [Hr Hres].
    rewrite for_years_cons, year_body_eq. cbn [flat_map]. unfold year_links at 1.
    unfold year_ok, titled in Hy. unfold year_clear in Hc. unfold year_resolves in Hr.
    destruct (Soup.find "p" "info-title" y) as [t |]; [| discriminate].
    destruct (Soup.find_all "li" "asociada-item" true y) as [| m ms]; [discriminate |].
    destruct (for_months_no_stop urljoin last_year last_month (Soup.get_text t) (m :: ms)
                (false, links) w) as (w1 & -> & _).
    { intros m' t' Hin Ht'. rewrite forallb_forall in Hc.
      now apply (month_clear_spec _ _ _ m' (Hc m' Hin)). }
    { exact Hr. }
    cbn [fst snd].
    destruct (IH (links ++ flat_map (month_links urljoin (Soup.get_text t)) (m :: ms)) w1
                Hok Hclear Hres) as (w' & ->).
    exists w'. now rewrite <- app_assoc.
Qed.

End Stop.

(** X3.  The year entries [before] are well formed, hold no candidate at the
    checkpoint and have links that resolve; in the year after them the
    candidates [pre] are not at the checkpoint, their links resolve too, and
    the candidate after [pre] is at the checkpoint.  Then the walk of
    [get_data] returns the records of [before] followed by those of [pre],
    whatever comes after that candidate and whatever the later year entries
    are. *)
Theorem walk_stops_at_checkpoint
    (urljoin : string -> string -> Exception + string) (url : string)
    (last_year last_month : json)
    (w : World) (soup main y ty m : PageElement)
    (before older pre post : list PageElement) :
  web w url = Some soup ->
  Soup.find "ul" "asociada-list trancateList docs" soup = Some main ->
  Soup.find_all "li" "asociada-item" false main = before ++ y :: older ->
  forallb year_ok before = true ->
  forallb (year_clear last_year last_month) before = true ->
  forallb (year_resolves urljoin) before = true ->
  Soup.find "p" "info-title" y = Some ty ->
  Soup.find_all "li" "asociada-item" true y = pre ++ m :: post ->
  forallb (month_clear last_year last_month (Soup.get_text ty)) pre = true ->
  forallb (month_resolves urljoin) pre = true ->
  month_clear last_year last_month (Soup.get_text ty) m = false ->
  exists w',
    walk urljoin url last_year last_month w
    = (inr (flat_map (year_links urljoin) before
            ++ flat_map (month_links urljoin (Soup.get_text ty)) pre), w')
    /\ extends w w'.
Proof.
  intros Hweb Hmain Hyears Hok Hclear Hres Hty Hmonths Hpre Hpres Hm.
  pose proof (walk_extends urljoin url last_year last_month w) as Hext.
  rewrite walk_eq, Hweb in *. cbv zeta in *. rewrite Hmain, Hyears in *.
  destruct (before ++ y :: older) as [| y0 ys] eqn:E; [now destruct before |].
  rewrite <- E in *. clear E y0 ys.
  rewrite for_years_app in * by reflexivity.
  destruct (for_years_clear urljoin last_year last_month before []
              (emit w INFO "Retrieving CSV file links...") Hok Hclear Hres)
    as (w1 & Hrun1).
  rewrite Hrun1 in *. cbn [fst snd app] in *.
  rewrite for_years_cons, year_body_eq, Hty, Hmonths in *.
  destruct (pre ++ m :: post) as [| m0 ms] eqn:E; [now destruct pre |].
  rewrite <- E in *. clear E m0 ms.
  destruct (for_months_stop_at urljoin last_year last_month (Soup.get_text ty)
              pre m post (false, flat_map (year_links urljoin) before) w1 Hpre Hpres Hm)
    as (w2 & Hrun2).
  rewrite Hrun2 in *. cbn [fst snd] in *. now exists w2.
Qed.

Lemma walk_stops_at_checkpoint_witness :
  let w := Examples.serving Examples.listing_2025_2024 None in
  exists w',
    walk Examples.join_path MAIN_URL (JStr "2024") (JStr "12") w
    = (inr (map Spec.to_json [Examples.rec_2025_03; Examples.rec_2025_02;
                              Examples.rec_2025_01]), w')
    /\ extends w w'.
Proof.
  intros w.
  exact (walk_stops_at_checkpoint Examples.join_path MAIN_URL (JStr "2024") (JStr "12") w
           Examples.listing_2025_2024
           (Html.listing [
              Html.year_item "2025" [Html.month_item "03" "/csv/2025-03.zip";
                                     Html.month_item "02" "/csv/2025-02.zip";
                                     Html.month_item "01" "/csv/2025-01.zip"];
              Html.year_item "2024" [Html.month_item "12" "/csv/2024-12.zip"]])
           (Html.year_item "2024" [Html.month_item "12" "/csv/2024-12.zip"])
           (Html.title "2024")
           (Html.month_item "12" "/csv/2024-12.zip")
           [Html.year_item "2025" [Html.month_item "03" "/csv/2025-03.zip";
                                   Html.month_item "02" "/csv/2025-02.zip";
                                   Html.month_item "01" "/csv/2025-01.zip"]]
           [] [] [Html.link_item "/csv/2024-12.zip"]
           eq_refl eq_refl eq_refl eq_refl eq_refl eq_refl eq_refl eq_refl eq_refl
           eq_refl eq_refl).
Defined.

(** ** The save step, again *)

Lemma filter_twice {A} (f : A -> bool) (l : list A) :
  filter f (filter f l) = filter f l.
Proof.
  induction l as [| x l IH]; [reflexivity |]. cbn.
  destruct (f x) eqn:E; cbn; [rewrite E; now f_equal | exact IH].
Qed.

Lemma contains_self (links : list json) (r : json) :
  In r links -> Python.eqb r r = true -> Python.contains links r = true.
Proof.
  intros Hin Hr. apply existsb_exists. now exists r.
Qed.

(** Merging the same new links into the result of a merge changes nothing,
    as soon as each new link equals itself. *)
Lemma merge_again (links items : list json) :
  Forall (fun r => Python.eqb r r = true) links ->
  merge links (merge links items) = merge links items.
Proof.
  intros Hrefl. unfold merge at 1 3. f_equal.
  unfold merge. rewrite filter_app, filter_twice.
  replace (filter (fun item => negb (Python.contains links item)) links) with (@nil json);
    [reflexivity |].
  symmetry. rewrite Forall_forall in Hrefl.
  assert (H : forall l, (forall r, In r l -> In r links) ->
                        filter (fun item => negb (Python.contains links item)) l = []).
  { induction l as [| r l IH]; intros Hsub; [reflexivity |]. cbn.
    rewrite (contains_self links r) by (auto using in_eq). cbn.
    apply IH. intros; apply Hsub; now right. }
  now apply H.
Qed.

Lemma emitted_refl (urljoin : string -> string -> Exception + string)
    last_year last_month links :
  Forall (fun r => exists yv mv h full_url,
              urljoin BASE_URL h = inr full_url
              /\ r = record yv mv full_url
              /\ at_checkpoint last_year last_month yv mv = false) links ->
  Forall (fun r => Python.eqb r r = true) links.
Proof.
  apply Forall_impl. intros r (yv & mv & h & full_url & _ & -> & _).
  now rewrite eqb_record, !String.eqb_refl.
Qed.

(** Where the save step returns, the file holds the merge of the links into
    the items the old content iterates to, and that list could be
    encoded. *)
Lemma save_returns links w w1 :
  save links w = (inr tt, w1) ->
  exists items,
    w1 = mkWorld (web w) (Some (Parsed (JList (merge links items)))) (logged w)
    /\ Python.encodable (JList (merge links items)) = true.
Proof.
  assert (Hdump : forall v pages f lg,
             json_dump v (mkWorld pages f lg) = (inr tt, w1) ->
             w1 = mkWorld pages (Some (Parsed v)) lg /\ Python.encodable v = true).
  { intros v pages f lg. unfold json_dump.
    destruct (Python.encodable v); [| discriminate]. now intros [= <-]. }
  destruct w as [pages [[| data] |] lg]; cbn.
  - discriminate.
  - destruct data; cbn; try discriminate; intros H; apply Hdump in H; eexists; exact H.
  - intros H. exists []. unfold merge. cbn [filter]. rewrite app_nil_r.
    now apply Hdump in H.
Qed.

(** X4.  [get_data] is idempotent on the record file: after a run that
    returned, a second run with the same checkpoint over the same page
    returns too and leaves the file exactly as the first run wrote it. *)
Theorem get_data_twice_same_file
    (urljoin : string -> string -> Exception + string) (url : string)
    (last_year last_month : json) (w w1 : World) :
  get_data urljoin url last_year last_month w = (inr tt, w1) ->
  exists w2,
    get_data urljoin url last_year last_month w1 = (inr tt, w2)
    /\ files_data w2 = files_data w1.
Proof.
  rewrite !get_data_eq.
  destruct (walk urljoin url last_year last_month w) as [[e | links] wa] eqn:Hwalk;
    [discriminate |].
  intros Hsave.
  pose proof (walk_extends urljoin url last_year last_month w) as (Hweb & _ & _).
  rewrite Hwalk in Hweb. cbn [snd] in Hweb.
  apply save_returns in Hsave as (items & -> & Henc).
  set (w1 := mkWorld (web wa) (Some (Parsed (JList (merge links items)))) (logged wa)).
  pose proof (walk_fst urljoin last_year last_month url w w1) as Hfst.
  rewrite Hwalk in Hfst. cbn [fst] in Hfst.
  pose proof (walk_extends urljoin url last_year last_month w1) as (Hweb1 & Hfile1 & _).
  destruct (walk urljoin url last_year last_month w1) as [r wb].
  cbn [fst snd] in *. rewrite <- Hfst by (cbn; now rewrite Hweb).
  rewrite (save_existing links (merge links items) wb Hfile1).
  rewrite merge_again by (eapply emitted_refl, walk_emitted, Hwalk).
  rewrite json_dump_ok by exact Henc.
  eexists. split; reflexivity.
Qed.

Lemma get_data_twice_same_file_witness :
  let kept := map Spec.to_json [Examples.rec_2025_02; Examples.rec_2025_01] in
  let w := Examples.serving Examples.listing_2025_2024 (Some (Parsed (JList kept))) in
  let w1 := snd (get_data Examples.join_path MAIN_URL (JStr "2025") (JStr "02") w) in
  files_data w1
  = Some (Parsed (JList (map Spec.to_json [Examples.rec_2025_03; Examples.rec_2025_02;
                                           Examples.rec_2025_01])))
  /\ exists w2,
       get_data Examples.join_path MAIN_URL (JStr "2025") (JStr "02") w1 = (inr tt, w2)
       /\ files_data w2 = files_data w1.
Proof.
  intros kept w w1. split; [reflexivity |].
  exact (get_data_twice_same_file Examples.join_path MAIN_URL (JStr "2025") (JStr "02")
           w w1 eq_refl).
Defined.

(** X7.  The save step loses nothing and invents nothing: every item of the
    stored sequence is in the saved list or equals one of the new links,
    every saved item is a new link or a stored item, and the saved list is
    no longer than both together. *)
Theorem save_keeps_every_stored_item
    (links existing : list json) (w w' : World) :
  stored w = Some existing ->
  save links w = (inr tt, w') ->
  exists saved,
    files_data w' = Some (Parsed (JList saved))
    /\ (forall item, In item existing ->
                     In item saved \/ Python.contains links item = true)
    /\ (forall item, In item saved -> In item links \/ In item existing)
    /\ (length links <= length saved <= length links + length existing)%nat.
Proof.
  intros Hstored Hsave. rewrite (save_stored _ _ _ Hstored) in Hsave.
  unfold json_dump in Hsave. destruct (Python.encodable _); [| discriminate].
  injection Hsave as <-. exists (merge links existing). cbn [files_data].
  split; [reflexivity |]. unfold merge. repeat split.
  - intros item Hin.
    destruct (Python.contains links item) eqn:E; [now right | left].
    apply in_or_app. right. apply filter_In. now rewrite E.
  - intros item Hin. apply in_app_or in Hin as [Hin | Hin]; [now left | right].
    now apply filter_In in Hin.
  - rewrite length_app. lia.
  - rewrite length_app.
    pose proof (filter_length_le (fun item => negb (Python.contains links item)) existing).
    lia.
Qed.

Lemma save_keeps_every_stored_item_witness :
  let kept := map Spec.to_json [Examples.rec_2025_02; Examples.rec_2025_01] in
  let links := map Spec.to_json [Examples.rec_2025_03; Examples.rec_2025_02] in
  let w := Examples.serving Examples.listing_2025_2024 (Some (Parsed (JList kept))) in
  stored w = Some kept
  /\ exists saved,
       files_data (snd (save links w)) = Some (Parsed (JList saved))
       /\ (forall item, In item kept ->
                        In item saved \/ Python.contains links item = true).
Proof.
  intros kept links w. split; [reflexivity |].
  destruct (save_keeps_every_stored_item links kept w (snd (save links w))
              eq_refl eq_refl) as (saved & Hfile & Hkept & _).
  exists saved. split; [exact Hfile | exact Hkept].
Defined.

(** X8.  The duplicate test of the merge is by value: a stored item equals
    one of the new records exactly when it is a dict of three entries whose
    "year", "month" and "link" are the strings of that record, in whatever
    key order. *)
Theorem stored_item_is_duplicate_iff
    (new : list Spec.DiscoveryRecord) (item : json) :
  Python.contains (map Spec.to_json new) item = true
  <-> exists r d,
        In r new /\ item = JDict d /\ length d = 3%nat
        /\ Dict.lookup "year" d = Some (JStr (Spec.year r))
        /\ Dict.lookup "month" d = Some (JStr (Spec.month r))
        /\ Dict.lookup "link" d = Some (JStr (Spec.link r)).
Proof.
  assert (Hone : forall r,
             Python.eqb (Spec.to_json r) item = true
             <-> exists d, item = JDict d /\ length d = 3%nat
                   /\ Dict.lookup "year" d = Some (JStr (Spec.year r))
                   /\ Dict.lookup "month" d = Some (JStr (Spec.month r))
                   /\ Dict.lookup "link" d = Some (JStr (Spec.link r))).
  { intros [y m l]. cbn [Spec.to_json Spec.year Spec.month Spec.link]. split.
    - destruct item as [| | | | | d]; try discriminate. cbn. intros H.
      apply andb_true_iff in H as [Hlen H]. apply andb_true_iff in H as [Hy H].
      apply andb_true_iff in H as [Hm H]. apply andb_true_iff in H as [Hl _].
      exists d. split; [reflexivity |].
      split; [symmetry; now apply Nat.eqb_eq |].
      destruct (Dict.lookup "year" d) as [vy |]; [| discriminate].
      destruct (Dict.lookup "month" d) as [vm |]; [| discriminate].
      destruct (Dict.lookup "link" d) as [vl |]; [| discriminate].
      apply eqb_JStr in Hy, Hm, Hl. now subst.
    - intros (d & -> & Hlen & Hy & Hm & Hl). cbn. rewrite Hlen, Hy, Hm, Hl. cbn.
      now rewrite !String.eqb_refl. }
  unfold Python.contains. rewrite existsb_exists. split.
  - intros (e & Hin & He). apply in_map_iff in Hin as (r & <- & Hin).
    apply Hone in He as (d & Hd). exists r, d. tauto.
  - intros (r & d & Hin & Hd). exists (Spec.to_json r).
    split; [now apply in_map | apply Hone; now exists d].
Qed.


(** ** Running the walk again from the record it found first *)

Section Rerun.

Variable urljoin : string -> string -> Exception + string.
Variables last_year last_month : json.

(** A month loop that found nothing and did not stop finds nothing under any
    other checkpoint. *)
Lemma for_months_quiet yv months : forall w w1,
  for_months urljoin last_year last_month yv months (false, []) w = (inr (false, []), w1) ->
  forall ly lm w', exists flag w2,
    for_months urljoin ly lm yv months (false, []) w' = (inr (flag, []), w2).
Proof.
  induction months as [| m0 rest IH]; intros w w1 Hrun ly lm w'.
  - now exists false, w'.
  - rewrite for_months_cons, month_body_eq in Hrun. rewrite for_months_cons, month_body_eq.
    destruct (Soup.find "p" "info-title" m0) as [t |].
    + destruct (at_checkpoint last_year last_month yv (Soup.get_text t)); [discriminate |].
      destruct (zip_href m0) as [h |].
      * destruct (urljoin BASE_URL h) as [e | full_url]; [discriminate |].
        apply for_months_shape in Hrun as (pre & post & _ & _ & _ & Hlinks & _).
        discriminate.
      * destruct (at_checkpoint ly lm yv (Soup.get_text t)).
        -- now exists true; eexists.
        -- eapply IH, Hrun.
    + eapply IH, Hrun.
Qed.

(** The month loop that found the record of [y]/[m] first stops, with
    nothing found, when it runs again with that record as the checkpoint. *)
Lemma for_months_rerun yv months y m l : forall w flag more w1,
  for_months urljoin last_year last_month yv months (false, []) w
  = (inr (flag, record y m l :: more), w1) ->
  y <> "" -> m <> "" ->
  forall w', exists w2,
    for_months urljoin (JStr y) (JStr m) yv months (false, []) w' = (inr (true, []), w2).
Proof.
  induction months as [| m0 rest IH]; intros w flag more w1 Hrun Hy Hm w'.
  - discriminate.
  - rewrite for_months_cons, month_body_eq in Hrun. rewrite for_months_cons, month_body_eq.
    destruct (Soup.find "p" "info-title" m0) as [t |].
    + destruct (at_checkpoint last_year last_month yv (Soup.get_text t)); [discriminate |].
      destruct (zip_href m0) as [h |].
      * destruct (urljoin BASE_URL h) as [e | full_url]; [discriminate |].
        apply for_months_shape in Hrun as (pre & post & _ & _ & _ & Hlinks & _).
        cbn in Hlinks. injection Hlinks as -> -> _ _.
        assert (Hcp : at_checkpoint (JStr yv) (JStr (Soup.get_text t)) yv (Soup.get_text t)
                      = true) by (apply at_checkpoint_true_iff; auto).
        rewrite Hcp. now eexists.
      * destruct (at_checkpoint (JStr y) (JStr m) yv (Soup.get_text t)).
        -- now eexists.
        -- eapply IH; eassumption.
    + eapply IH; eassumption.
Qed.

Lemma for_years_rerun years y m l : forall w flag more w1,
  for_years urljoin last_year last_month years (false, []) w
  = (inr (flag, record y m l :: more), w1) ->
  y <> "" -> m <> "" ->
  forall w', exists w2,
    for_years urljoin (JStr y) (JStr m) years (false, []) w' = (inr (true, []), w2).
Proof.
  induction years as [| y0 ys IH]; intros w flag more w1 Hrun Hy Hm w'.
  - discriminate.
  - rewrite for_years_cons, year_body_eq in Hrun. rewrite for_years_cons, year_body_eq.
    destruct (Soup.find "p" "info-title" y0) as [t |]; [| discriminate].
    destruct (Soup.find_all "li" "asociada-item" true y0) as [| m0 ms]; [discriminate |].
    destruct (for_months urljoin last_year last_month (Soup.get_text t) (m0 :: ms)
                (false, []) w) as [[e | [f1 found]] wa] eqn:Hmonths; [discriminate |].
    cbn [fst] in Hrun.
    destruct found as [| r found].
    + destruct f1; [discriminate |].
      destruct (for_months_quiet (Soup.get_text t) (m0 :: ms) w wa Hmonths
                  (JStr y) (JStr m) w') as ([|] & w2 & ->); cbn [fst].
      * now eexists.
      * eapply IH; eassumption.
    + assert (Hr : r = record y m l).
      { destruct f1.
        - now injection Hrun as _ <- _ _.
        - apply for_years_shape in Hrun as (new & rest & Hnew & _).
          cbn in Hnew. now injection Hnew as <- _. }
      subst r.
      destruct (for_months_rerun (Soup.get_text t) (m0 :: ms) y m l w f1 found wa
                  Hmonths Hy Hm w') as (w2 & ->).
      now eexists.
Qed.

End Rerun.

Lemma walk_rerun
    (urljoin : string -> string -> Exception + string) (url : string)
    (last_year last_month : json)
    (w w1 w' : World) (y m l : string) (more : list json) :
  walk urljoin url last_year last_month w = (inr (record y m l :: more), w1) ->
  y <> "" -> m <> "" ->
  web w' url = web w url ->
  exists w2, walk urljoin url (JStr y) (JStr m) w' = (inr [], w2).
Proof.
  rewrite !walk_eq. intros Hrun Hy Hm ->.
  destruct (web w url) as [soup |]; [| discriminate]. cbv zeta in *.
  destruct (Soup.find "ul" "asociada-list trancateList docs" soup) as [main |];
    [| discriminate].
  destruct (Soup.find_all "li" "asociada-item" false main) as [| y0 ys];
    [discriminate |].
  destruct (for_years urljoin last_year last_month _ _ _) as [[e | [flag found]] wa] eqn:E;
    [discriminate |].
  injection Hrun as -> _.
  destruct (for_years_rerun urljoin last_year last_month (y0 :: ys) y m l _ _ _ _ E Hy Hm
              (emit w' INFO "Retrieving CSV file links...")) as (w2 & ->).
  now exists w2.
Qed.

(** ** The whole script *)

Lemma main_eq urljoin w :
  main urljoin w
  = match get_last_data w with
    | (inr checkpoint, w0) => get_data urljoin MAIN_URL (fst checkpoint) (snd checkpoint) w0
    | (inl e, w0) => (inl e, w0)
    end.
Proof. reflexivity. Qed.

Lemma get_last_data_extends w : extends w (snd (get_last_data w)).
Proof.
  destruct w as [pages [[| data] |] lg]; cbn.
  - apply extends_refl.
  - destruct (Python.truthy data); cbn.
    + destruct data as [| | | [| c s] | [| x items] | d]; cbn; try apply extends_refl.
      destruct x; cbn; apply extends_refl.
    + apply (extends_emit _ _ ERROR), extends_refl.
  - apply (extends_emit _ _ ERROR), extends_refl.
Qed.

(** The checkpoint depends on the content of the record file only. *)
Lemma get_last_data_fst w w' :
  files_data w = files_data w' -> fst (get_last_data w) = fst (get_last_data w').
Proof.
  destruct w as [pages f lg], w' as [pages' f' lg']. cbn. intros <-.
  destruct f as [[| data] |]; cbn; try reflexivity.
  destruct (Python.truthy data); cbn; [| reflexivity].
  destruct data as [| | | [| c s] | [| x items] | d]; cbn; try reflexivity.
  destruct x; reflexivity.
Qed.

(** A dump that returns wrote its value, which could be encoded. *)
Lemma json_dump_returns v w w1 :
  json_dump v w = (inr tt, w1) ->
  w1 = mkWorld (web w) (Some (Parsed v)) (logged w) /\ Python.encodable v = true.
Proof.
  unfold json_dump. destruct (Python.encodable v); [| discriminate]. now intros [= <-].
Qed.

Ltac dumped H :=
  first [apply json_dump_returns in H as [-> _] | injection H as <-].

(** Saving no link keeps the checkpoint: the file then holds the list of the
    items the old content iterated to. *)
Lemma checkpoint_after_quiet_save w wa w1 checkpoint w0 :
  get_last_data w = (inr checkpoint, w0) ->
  files_data wa = files_data w ->
  save [] wa = (inr tt, w1) ->
  fst (get_last_data w1) = inr checkpoint.
Proof.
  destruct w as [pages f lg], wa as [pages' f' lg']. cbn [files_data].
  intros Hget ->. revert Hget.
  destruct f as [[| data] |]; cbn; try discriminate.
  - destruct data as [| | | [| c s] | items | [| kv d]]; cbn; try discriminate.
    + intros [= <- _] H. dumped H. reflexivity.
    + change (filter (fun _ : json => true) items) with (merge [] items).
      rewrite merge_nil. intros Hget H. dumped H. cbn.
      revert Hget. destruct items as [| x items]; cbn.
      * now intros [= <- _].
      * destruct x; cbn; try discriminate. now intros [= <- _].
    + intros [= <- _] H. dumped H. reflexivity.
  - intros [= <- _] H. dumped H. reflexivity.
Qed.

(** X5.  The script is idempotent: after a run of [main] that returned, and
    provided the first stored record then carries a non-empty year and
    month, a second run over the same page returns too and leaves the
    record file exactly as the first run wrote it. *)
Theorem main_twice_same_file
    (urljoin : string -> string -> Exception + string) (w w1 : World) :
  main urljoin w = (inr tt, w1) ->
  (forall y m l rest,
      files_data w1 = Some (Parsed (JList (record y m l :: rest))) ->
      y <> "" /\ m <> "") ->
  exists w2,
    main urljoin w1 = (inr tt, w2) /\ files_data w2 = files_data w1.
Proof.
  rewrite !main_eq.
  pose proof (get_last_data_extends w) as (Hweb0 & Hfile0 & _).
  destruct (get_last_data w) as [[e | [ly lm]] w0] eqn:Hget; [discriminate |].
  cbn [fst snd] in *. rewrite get_data_eq.
  pose proof (walk_extends urljoin MAIN_URL ly lm w0) as (Hweba & Hfilea & _).
  destruct (walk urljoin MAIN_URL ly lm w0) as [[e | links] wa] eqn:Hwalk; [discriminate |].
  cbn [snd] in *. intros Hsave Hlabels.
  pose proof Hsave as Hw1. apply save_returns in Hw1 as (items & Hw1 & Henc).
  assert (Hweb1 : web w1 = web w0) by (subst w1; exact Hweba).
  assert (quiet : forall c wb,
             get_last_data w1 = (inr c, wb) ->
             fst (walk urljoin MAIN_URL (fst c) (snd c) wb) = inr [] ->
             exists w2,
               get_data urljoin MAIN_URL (fst c) (snd c) wb = (inr tt, w2)
               /\ files_data w2 = files_data w1).
  { intros c wb Hget1 Hquiet.
    pose proof (get_last_data_extends w1) as (_ & Hfileb & _).
    rewrite Hget1 in Hfileb. cbn [snd] in Hfileb.
    pose proof (walk_extends urljoin MAIN_URL (fst c) (snd c) wb) as (_ & Hfilec & _).
    rewrite get_data_eq.
    destruct (walk urljoin MAIN_URL (fst c) (snd c) wb) as [r wc].
    cbn [fst snd] in *. subst r.
    assert (Hfile : files_data wc = Some (Parsed (JList (merge links items))))
      by (rewrite Hfilec, Hfileb; now subst w1).
    rewrite (save_existing [] _ wc Hfile), merge_nil, json_dump_ok by exact Henc.
    eexists. split; [reflexivity |]. now subst w1. }
  destruct links as [| r more].
  - pose proof (checkpoint_after_quiet_save w wa w1 (ly, lm) w0 Hget
                  (eq_trans Hfilea Hfile0) Hsave) as Hsame.
    pose proof (get_last_data_extends w1) as (Hwebb & _ & _).
    destruct (get_last_data w1) as [[e | c] wb] eqn:Hget1; [discriminate |].
    cbn [fst snd] in *. injection Hsame as ->.
    apply (quiet (ly, lm) wb eq_refl). cbn [fst snd].
    rewrite (walk_fst urljoin ly lm MAIN_URL wb w0), Hwalk; [reflexivity |].
    now rewrite Hwebb, Hweb1.
  - pose proof (walk_emitted _ _ _ _ _ _ _ Hwalk) as Hall.
    apply Forall_inv in Hall as (y & m & h & full_url & _ & -> & _).
    assert (Hfile1 : files_data w1
                     = Some (Parsed (JList (record y m full_url
                                            :: more
                                               ++ filter (fun item =>
                                                    negb (Python.contains
                                                            (record y m full_url
                                                             :: more) item)) items))))
      by (subst w1; reflexivity).
    destruct (Hlabels _ _ _ _ Hfile1) as [Hy Hm].
    assert (Hget1 : get_last_data w1 = (inr (JStr y, JStr m), w1))
      by (subst w1; reflexivity).
    rewrite Hget1. apply (quiet (JStr y, JStr m) w1 Hget1). cbn [fst snd].
    destruct (walk_rerun urljoin MAIN_URL ly lm w0 wa w1 y m _ more Hwalk Hy Hm)
      as (w2 & ->); [now rewrite Hweb1 | reflexivity].
Qed.

Lemma main_twice_same_file_witness :
  let w := Examples.serving Examples.listing_2025_2024
             (Some (Parsed (JList [Spec.to_json Examples.rec_2025_01]))) in
  let w1 := snd (main Examples.join_path w) in
  files_data w1
  = Some (Parsed (JList (map Spec.to_json [Examples.rec_2025_03; Examples.rec_2025_02;
                                           Examples.rec_2025_01])))
  /\ exists w2,
       main Examples.join_path w1 = (inr tt, w2) /\ files_data w2 = files_data w1.
Proof.
  intros w w1. split; [reflexivity |].
  apply (main_twice_same_file Examples.join_path w w1 eq_refl).
  intros y m l rest [= <- <- _ _]. split; discriminate.
Defined.

(** X6.  A first run: with no record file, or with one that holds the empty
    list, [main] walks the whole listing with the checkpoint ("", "").  When
    every year entry is well formed and every link resolves, it goes on to
    dump exactly the records of every month of every year, in document
    order: the file holds them when they can be encoded, and is left cut
    short by [UnicodeEncodeError] when they cannot. *)
Theorem main_first_run_saves_whole_listing
    (urljoin : string -> string -> Exception + string) (w : World)
    (soup main_ul : PageElement) :
  stored w = Some [] ->
  web w MAIN_URL = Some soup ->
  Soup.find "ul" "asociada-list trancateList docs" soup = Some main_ul ->
  let years := Soup.find_all "li" "asociada-item" false main_ul in
  (0 < length years)%nat ->
  forallb year_ok years = true ->
  forallb (year_resolves urljoin) years = true ->
  fst (get_last_data w) = inr (JStr "", JStr "")
  /\ (Python.encodable (JList (flat_map (year_links urljoin) years)) = true ->
      exists w',
        main urljoin w = (inr tt, w')
        /\ files_data w' = Some (Parsed (JList (flat_map (year_links urljoin) years))))
  /\ (Python.encodable (JList (flat_map (year_links urljoin) years)) = false ->
      exists w',
        main urljoin w = (inl UnicodeEncodeError, w')
        /\ files_data w' = Some Unparsable).
Proof.
  intros Hstored Hweb Hmain years Hlen Hok Hres.
  assert (Hget : fst (get_last_data w) = inr (JStr "", JStr "")).
  { destruct w as [pages [[| data] |] lg]; cbn in *; try discriminate; [| reflexivity].
    destruct data as [| | | | [| x items] |]; try discriminate. reflexivity. }
  split; [exact Hget |].
  rewrite main_eq.
  pose proof (get_last_data_extends w) as (Hweb0 & Hfile0 & _).
  destruct (get_last_data w) as [r w0]. cbn [fst snd] in *. subst r. cbn [fst snd].
  rewrite get_data_eq, walk_eq, Hweb0, Hweb. cbv zeta. rewrite Hmain. fold years.
  destruct (for_years_no_stop urljoin (JStr "") (JStr "") years []
              (emit w0 INFO "Retrieving CSV file links..."))
    as (w1 & Hrun & (_ & Hfile1 & _)).
  { intros y Hy. rewrite forallb_forall in Hok. now apply Hok. }
  { reflexivity. }
  { exact Hres. }
  destruct years as [| y ys]; [cbn in Hlen; lia |].
  rewrite Hrun. cbn [snd app].
  assert (Hstored1 : stored w1 = Some []).
  { cbn in Hfile1. unfold stored in *. now rewrite Hfile1, Hfile0. }
  rewrite (save_stored _ [] w1 Hstored1).
  assert (Hmerge : forall l, merge l [] = l)
    by (intros l; unfold merge; cbn [filter]; apply app_nil_r).
  rewrite Hmerge. split; intros Henc.
  - rewrite json_dump_ok by exact Henc. eexists. split; reflexivity.
  - rewrite json_dump_fails by exact Henc. eexists. split; reflexivity.
Qed.

Lemma main_first_run_saves_whole_listing_witness :
  let w := Examples.serving Examples.listing_2025_2024 None in
  stored w = Some []
  /\ exists w',
       main Examples.join_path w = (inr tt, w')
       /\ files_data w'
          = Some (Parsed (JList (map Spec.to_json
                    [Examples.rec_2025_03; Examples.rec_2025_02;
                     Examples.rec_2025_01; Examples.rec_2024_12]))).
Proof.
  intros w. split; [reflexivity |].
  refine (proj1 (proj2 (main_first_run_saves_whole_listing Examples.join_path w
                   Examples.listing_2025_2024
                   (Html.listing [
                      Html.year_item "2025" [Html.month_item "03" "/csv/2025-03.zip";
                                             Html.month_item "02" "/csv/2025-02.zip";
                                             Html.month_item "01" "/csv/2025-01.zip"];
                      Html.year_item "2024" [Html.month_item "12" "/csv/2024-12.zip"]])
                   eq_refl eq_refl eq_refl _ eq_refl eq_refl)) eq_refl).
  cbn. lia.
Defined.

(** X9.  [get_last_data] raises exactly when the record file does not parse,
    or holds a non-empty value other than a list whose first item is a dict.
    When it raises, it has logged nothing, and [main] ends with that
    exception before the page is requested. *)
Theorem get_last_data_raises_iff
    (urljoin : string -> string -> Exception + string) (w : World) :
  ((exists e w', get_last_data w = (inl e, w'))
   <-> files_data w = Some Unparsable
       \/ exists data, files_data w = Some (Parsed data)
                       /\ Python.truthy data = true
                       /\ forall d rest, data <> JList (JDict d :: rest))
  /\ (forall e w', get_last_data w = (inl e, w') ->
                   w' = w /\ main urljoin w = (inl e, w)).
Proof.
  split.
  - destruct w as [pages [[| data] |] lg]; cbn.
    + split; [now left | intros _; now do 2 eexists].
    + split.
      * intros (e & w' & H). right. exists data. split; [reflexivity |].
        destruct (Python.truthy data) eqn:Ht; [| discriminate]. split; [reflexivity |].
        intros d rest ->. discriminate.
      * intros [? | (data' & [= <-] & Ht & Hshape)]; [discriminate |]. rewrite Ht. cbn.
        destruct data as [| | | [| c s] | [| x items] | d]; cbn;
          try discriminate; try (now do 2 eexists).
        destruct x; cbn; try (now do 2 eexists).
        now destruct (Hshape entries items).
    + split; [intros (e & w' & H); discriminate |].
      intros [? | (data & ? & _)]; discriminate.
  - intros e w' Hget. rewrite main_eq, Hget.
    assert (w' = w); [| now subst].
    revert Hget. destruct w as [pages [[| data] |] lg]; cbn.
    + now intros [= _ <-].
    + destruct (Python.truthy data); cbn; [| discriminate].
      destruct data as [| | | [| c s] | [| x items] | d]; cbn;
        try discriminate; try (now intros [= _ <-]).
      destruct x; cbn; try discriminate; now intros [= _ <-].
    + discriminate.
Qed.

Lemma get_last_data_raises_iff_witness :
  let w := mkWorld (fun _ => Some Examples.listing_2025_2024)
                   (Some (Parsed (JList [JStr "2025-03"]))) [] in
  get_last_data w = (inl AttributeError, w)
  /\ main Examples.join_path w = (inl AttributeError, w).
Proof.
  intros w. split; [reflexivity |].
  exact (proj2 (proj2 (get_last_data_raises_iff Examples.join_path w)
                  AttributeError w eq_refl)).
Defined.



(** X11.  What a run writes is what the next run reads: after a run of
    [get_data] whose walk returned at least one record, [get_last_data]
    returns the year and month of the first of them and logs nothing; after
    a run whose walk returned none, it returns the checkpoint it returned
    before the run. *)
Theorem checkpoint_after_run
    (urljoin : string -> string -> Exception + string) (url : string)
    (last_year last_month : json)
    (w wa w1 : World) (links : list json) :
  walk urljoin url last_year last_month w = (inr links, wa) ->
  get_data urljoin url last_year last_month w = (inr tt, w1) ->
  (forall y m l more,
      links = record y m l :: more ->
      get_last_data w1 = (inr (JStr y, JStr m), w1))
  /\ (links = [] ->
      forall checkpoint w0,
        get_last_data w = (inr checkpoint, w0) ->
        fst (get_last_data w1) = inr checkpoint).
Proof.
  intros Hwalk. rewrite get_data_eq, Hwalk. intros Hsave.
  pose proof (walk_extends urljoin url last_year last_month w) as (_ & Hfile & _).
  rewrite Hwalk in Hfile. cbn [snd] in Hfile.
  split.
  - intros y m l more ->. apply save_returns in Hsave as (items & -> & _). reflexivity.
  - intros -> checkpoint w0 Hget.
    eapply checkpoint_after_quiet_save; eassumption.
Qed.

Lemma checkpoint_after_run_witness :
  let w := Examples.serving Examples.listing_2025_2024
             (Some (Parsed (JList [Spec.to_json Examples.rec_2025_01]))) in
  let w1 := snd (get_data Examples.join_path MAIN_URL (JStr "2025") (JStr "01") w) in
  fst (walk Examples.join_path MAIN_URL (JStr "2025") (JStr "01") w)
  = inr (map Spec.to_json [Examples.rec_2025_03; Examples.rec_2025_02])
  /\ get_last_data w1 = (inr (JStr "2025", JStr "03"), w1).
Proof.
  intros w w1. split; [reflexivity |].
  exact (proj1 (checkpoint_after_run Examples.join_path MAIN_URL (JStr "2025") (JStr "01")
                  w (snd (walk Examples.join_path MAIN_URL (JStr "2025") (JStr "01") w)) w1
                  (map Spec.to_json [Examples.rec_2025_03; Examples.rec_2025_02])
                  eq_refl eq_refl)
           "2025" "03" "https://datos.madrid.es/csv/2025-03.zip"
           [Spec.to_json Examples.rec_2025_02] eq_refl).
Defined.

(** ** Which year entries are rejected *)

Lemma find_None_iff name cls e :
  Soup.find name cls e = None
  <-> forall x, In x (Soup.descendants e) -> Soup.search_tag name cls x = false.
Proof.
  unfold Soup.find. rewrite <- filter_nil_iff. unfold Soup.find_all.
  destruct (filter (Soup.search_tag name cls) (Soup.descendants e));
    split; congruence.
Qed.

(** Where every link resolves, the month loop returns. *)
Lemma for_months_returns urljoin last_year last_month yv months : forall vars w,
  forallb (month_resolves urljoin) months = true ->
  exists vars' w',
    for_months urljoin last_year last_month yv months vars w = (inr vars', w').
Proof.
  induction months as [| m rest IH]; intros vars w Hres.
  - now exists vars, w.
  - cbn [forallb] in Hres. apply andb_true_iff in Hres as [Hm Hres].
    rewrite for_months_cons, month_body_eq. unfold month_resolves in Hm.
    destruct (Soup.find "p" "info-title" m) as [t |]; [| now apply IH].
    destruct (at_checkpoint last_year last_month yv (Soup.get_text t));
      [now do 2 eexists |].
    destruct (zip_href m) as [h |]; [| now apply IH].
    destruct (urljoin BASE_URL h) as [e | full_url]; [discriminate | now apply IH].
Qed.

(** X12.  What the year loop does with one year entry, by what occurs below
    it.  With no title element anywhere below, the body raises
    [ValueError "Year title not found."]; with a title but no listing item
    anywhere below, it raises [ValueError] naming the year; in both cases the
    world is untouched.  With both, at any depth, the body is the month loop
    over the items, whose outcome it passes on; so it returns only if both
    occur.  Where every link of the year resolves, the body raises
    [ValueError] with the world untouched exactly when the title or the
    items are missing, and returns exactly when both occur. *)
Theorem year_rejected_iff
    (urljoin : string -> string -> Exception + string) (last_year last_month : json)
    (y : PageElement) (vars : bool * list json) (w : World) :
  Soup.is_Tag y = true ->
  ((forall x, In x (Soup.descendants y) -> Soup.search_tag "p" "info-title" x = false) ->
   year_body urljoin last_year last_month y vars w
   = (inl (ValueError "Year title not found."), w))
  /\ (forall t,
        Soup.find "p" "info-title" y = Some t ->
        (forall x, In x (Soup.descendants y) ->
                   Soup.search_tag "li" "asociada-item" x = false) ->
        year_body urljoin last_year last_month y vars w
        = (inl (ValueError ("No months found for year " ++ Soup.get_text t ++ ".")), w))
  /\ (forall t,
        Soup.find "p" "info-title" y = Some t ->
        (exists x, In x (Soup.descendants y)
                   /\ Soup.search_tag "li" "asociada-item" x = true) ->
        year_body urljoin last_year last_month y vars w
        = match for_months urljoin last_year last_month (Soup.get_text t)
                  (Soup.find_all "li" "asociada-item" true y) vars w with
          | (inr vars', w') => (inr (if fst vars' then Break else Continue, vars'), w')
          | (inl e, w') => (inl e, w')
          end)
  /\ ((exists r w', year_body urljoin last_year last_month y vars w = (inr r, w')) ->
      (exists x, In x (Soup.descendants y)
                 /\ Soup.search_tag "p" "info-title" x = true)
      /\ (exists x, In x (Soup.descendants y)
                    /\ Soup.search_tag "li" "asociada-item" x = true))
  /\ (forallb (month_resolves urljoin) (Soup.find_all "li" "asociada-item" true y) = true ->
      ((exists msg, year_body urljoin last_year last_month y vars w
                    = (inl (ValueError msg), w))
       <-> (forall x, In x (Soup.descendants y) ->
                      Soup.search_tag "p" "info-title" x = false)
           \/ (forall x, In x (Soup.descendants y) ->
                         Soup.search_tag "li" "asociada-item" x = false))
      /\ ((exists r w', year_body urljoin last_year last_month y vars w = (inr r, w'))
          <-> (exists x, In x (Soup.descendants y)
                         /\ Soup.search_tag "p" "info-title" x = true)
              /\ (exists x, In x (Soup.descendants y)
                            /\ Soup.search_tag "li" "asociada-item" x = true))).
Proof.
  intros Htag.
  assert (Hp : Soup.find "p" "info-title" y <> None
               <-> exists x, In x (Soup.descendants y)
                             /\ Soup.search_tag "p" "info-title" x = true).
  { split.
    - destruct (Soup.find "p" "info-title" y) as [t |] eqn:E; [| congruence].
      intros _. exists t. now apply find_Some.
    - intros (x & Hx & Hs) Hnone. rewrite find_None_iff in Hnone.
      rewrite (Hnone x Hx) in Hs. discriminate. }
  assert (Hli : Soup.find_all "li" "asociada-item" true y <> []
                <-> exists x, In x (Soup.descendants y)
                              /\ Soup.search_tag "li" "asociada-item" x = true).
  { split.
    - destruct (Soup.find_all "li" "asociada-item" true y) as [| x l] eqn:E; [congruence |].
      intros _. exists x. apply (in_find_all "li" "asociada-item" true y x).
      rewrite E. now left.
    - intros (x & Hx & Hs) Hnil. unfold Soup.find_all in Hnil.
      rewrite filter_nil_iff in Hnil. rewrite (Hnil x Hx) in Hs. discriminate. }
  rewrite year_body_eq, Htag.
  destruct (Soup.find "p" "info-title" y) as [t |] eqn:Ht.
  - assert (Htitle : exists x, In x (Soup.descendants y)
                               /\ Soup.search_tag "p" "info-title" x = true)
      by (apply Hp; congruence).
    assert (Hyes : ~ forall x, In x (Soup.descendants y) ->
                               Soup.search_tag "p" "info-title" x = false).
    { destruct Htitle as (x & Hx & Hs). intros H. rewrite (H x Hx) in Hs. discriminate. }
    destruct (Soup.find_all "li" "asociada-item" true y) as [| m ms] eqn:Hms.
    + assert (Hno : forall x, In x (Soup.descendants y) ->
                              Soup.search_tag "li" "asociada-item" x = false)
        by (apply filter_nil_iff; exact Hms).
      assert (Hnone : ~ exists x, In x (Soup.descendants y)
                                  /\ Soup.search_tag "li" "asociada-item" x = true).
      { intros (x & Hx & Hs). rewrite (Hno x Hx) in Hs. discriminate. }
      split; [| split; [| split; [| split]]].
      * intros H. now destruct Hyes.
      * now intros t' [= <-] _.
      * intros t' _ H. now destruct Hnone.
      * intros (r & w' & H). discriminate.
      * intros _. split; split.
        -- now right.
        -- intros _. now eexists.
        -- intros (r & w' & H). discriminate.
        -- intros (_ & H). now destruct Hnone.
    + assert (Hitem : exists x, In x (Soup.descendants y)
                                /\ Soup.search_tag "li" "asociada-item" x = true)
        by (apply Hli; congruence).
      assert (Hsome : ~ forall x, In x (Soup.descendants y) ->
                                  Soup.search_tag "li" "asociada-item" x = false).
      { destruct Hitem as (x & Hx & Hs). intros H. rewrite (H x Hx) in Hs. discriminate. }
      split; [| split; [| split; [| split]]].
      * intros H. now destruct Hyes.
      * intros t' _ H. now destruct Hsome.
      * now intros t' [= <-] _.
      * intros _. now split.
      * intros Hres.
        destruct (for_months_returns urljoin last_year last_month (Soup.get_text t)
                    (m :: ms) vars w Hres) as (v & w1 & ->).
        split; split.
        -- intros (msg & Hbad). discriminate.
        -- intros [Hbad | Hbad]; [now destruct Hyes | now destruct Hsome].
        -- intros _. now split.
        -- intros _. now do 2 eexists.
  - assert (Hno : forall x, In x (Soup.descendants y) ->
                            Soup.search_tag "p" "info-title" x = false)
      by (now apply find_None_iff).
    assert (Hnone : ~ exists x, In x (Soup.descendants y)
                                /\ Soup.search_tag "p" "info-title" x = true).
    { intros (x & Hx & Hs). rewrite (Hno x Hx) in Hs. discriminate. }
    split; [| split; [| split; [| split]]].
    + reflexivity.
    + discriminate.
    + discriminate.
    + intros (r & w' & H). discriminate.
    + intros _. split; split.
      * now left.
      * intros _. now eexists.
      * intros (r & w' & H). discriminate.
      * intros (H & _). now destruct Hnone.
Qed.

Lemma year_rejected_iff_witness :
  let w := Examples.serving Examples.listing_with_untitled_year None in
  Soup.is_Tag Examples.year_without_title = true
  /\ (forall x, In x (Soup.descendants Examples.year_without_title) ->
                Soup.search_tag "p" "info-title" x = false)
  /\ year_body Examples.join_path (JStr "") (JStr "") Examples.year_without_title
               (false, []) w
     = (inl (ValueError "Year title not found."), w).
Proof.
  intros w. split; [reflexivity |].
  assert (Hno : forall x, In x (Soup.descendants Examples.year_without_title) ->
                          Soup.search_tag "p" "info-title" x = false).
  { intros x Hx. cbn in Hx. repeat (destruct Hx as [<- | Hx]; [reflexivity |]).
    contradiction. }
  split; [exact Hno |].
  exact (proj1 (year_rejected_iff Examples.join_path (JStr "") (JStr "")
                  Examples.year_without_title (false, []) w eq_refl) Hno).
Defined.
